(** * Relay broker, egress executor and ingress adapter: a shallow embedding

    The three processes of the repository are embedded as pure functions
    that thread their state explicitly and return the list of effects
    (frames sent on sockets, calls on HTTP response handles) they cause:

    - [Broker]  : src/server/websocket-server.js  (class WebSocketRelayServer)
    - [Master]  : src/master/app.js               (class MasterProxy)
    - [Client]  : src/client/app.js               (class ClientProxy)

    JS [Map]s are [gmap]s, socket objects are natural numbers (object
    identity), [console.log] diagnostics are not modelled. *)

From stdpp Require Import gmap strings list fin_maps pretty.

Set Warnings "-register-all".

Open Scope string_scope.
Open Scope list_scope.

(** ** JSON values and JavaScript truthiness *)

(** Values produced by [JSON.parse].  Numbers are restricted to integers:
    the code only ever tests them for truthiness or passes them on. *)
Inductive json : Type :=
| JNull
| JBool (b : bool)
| JNum (n : Z)
| JStr (s : string)
| JArr (items : list json)
| JObj (fields : list (string * json)).

(** [if (v)] for a JSON value: [null], [false], [0] and [''] are falsy. *)
Definition truthy_json (v : json) : bool :=
  match v with
  | JNull => false
  | JBool b => b
  | JNum n => negb (Z.eqb n 0)
  | JStr s => negb (String.eqb s "")
  | JArr _ | JObj _ => true
  end.

(** [typeof v === 'object'] ([typeof null] is ['object'] too). *)
Definition typeof_object (v : json) : bool :=
  match v with
  | JNull | JArr _ | JObj _ => true
  | JBool _ | JNum _ | JStr _ => false
  end.

(** [a || b] where [a] is a string-valued property that may be missing. *)
Definition str_or (a : option string) (b : string) : string :=
  match a with
  | Some s => if decide (s = "") then b else s
  | None => b
  end.

(** [if (a)] for such a property: a missing or empty string is falsy. *)
Definition truthy_str (a : option string) : bool :=
  match a with
  | Some s => negb (String.eqb s "")
  | None => false
  end.

(** ** The wire envelope

    Every frame is a JSON object; the code reads and writes the properties
    below and no others.  A missing property is [None].  The tag and the
    identifiers are strings (section 6 of the specification). *)
Module Envelope.

Record t : Type := Build {
  type : option string;
  role : option string;
  clientId : option string;
  requestId : option string;
  method : option string;
  path : option string;
  headers : option (gmap string json);
  body : option json;
  query : option (list (string * json));
  statusCode : option Z;
  error : option string
}.

(** The object literal [{}]. *)
Definition empty : t :=
  Build None None None None None None None None None None None.

End Envelope.

Abbreviation envelope := Envelope.t.

(** * The relay broker (src/server/websocket-server.js) *)
Module Broker.

(** A socket object [ws], compared with [===]. *)
Abbreviation conn := nat (only parsing).

(** A value of [this.pendingRequests]. *)
Record pending : Type := {
  clientWs : conn;
  originalRequest : envelope
}.

(** The fields of [WebSocketRelayServer] that the handlers touch, and the
    [clientId] property the broker writes on socket objects. *)
Record state : Type := {
  clients : gmap string conn;
  master : option conn;
  requestId : nat;
  pendingRequests : gmap string pending;
  ws_clientId : gmap conn string
}.

(** The state built by the constructor. *)
Definition initial : state :=
  {| clients := ∅; master := None; requestId := 0;
     pendingRequests := ∅; ws_clientId := ∅ |}.

(** What the broker can do to a socket. *)
Inductive effect : Type :=
| Send (to : conn) (m : envelope)
| Close (c : conn).

Definition registered_master : envelope :=
  {| Envelope.type := Some "registered"; Envelope.role := Some "master";
     Envelope.clientId := None; Envelope.requestId := None;
     Envelope.method := None; Envelope.path := None;
     Envelope.headers := None; Envelope.body := None;
     Envelope.query := None; Envelope.statusCode := None;
     Envelope.error := None |}.

Definition registered_client (clientId : string) : envelope :=
  {| Envelope.type := Some "registered"; Envelope.role := Some "client";
     Envelope.clientId := Some clientId; Envelope.requestId := None;
     Envelope.method := None; Envelope.path := None;
     Envelope.headers := None; Envelope.body := None;
     Envelope.query := None; Envelope.statusCode := None;
     Envelope.error := None |}.

(** [handleRegistration(ws, message)]; [now] is [Date.now()]. *)
Definition handleRegistration (now : N) (ws : conn) (message : envelope)
    (s : state) : state * list effect :=
  if decide (Envelope.role message = Some "master") then
    ({| clients := clients s; master := Some ws; requestId := requestId s;
        pendingRequests := pendingRequests s;
        ws_clientId := ws_clientId s |},
     [Send ws registered_master])
  else if decide (Envelope.role message = Some "client") then
    let clientId := str_or (Envelope.clientId message) ("client_" +:+ pretty now) in
    ({| clients := <[clientId := ws]> (clients s); master := master s;
        requestId := requestId s; pendingRequests := pendingRequests s;
        ws_clientId := <[ws := clientId]> (ws_clientId s) |},
     [Send ws (registered_client clientId)])
  else (s, []).

(** The reply of [handleRequest] when [this.master] is [null]. *)
Definition master_unavailable (requestId : option string) : envelope :=
  {| Envelope.type := Some "error"; Envelope.role := None;
     Envelope.clientId := None; Envelope.requestId := requestId;
     Envelope.method := None; Envelope.path := None;
     Envelope.headers := None; Envelope.body := None;
     Envelope.query := None; Envelope.statusCode := None;
     Envelope.error := Some "Master computer not available" |}.

(** [forwardMessage] of [handleRequest]. *)
Definition forwardMessage (requestId : string) (message : envelope) : envelope :=
  {| Envelope.type := Some "request"; Envelope.role := None;
     Envelope.clientId := None; Envelope.requestId := Some requestId;
     Envelope.method := Envelope.method message;
     Envelope.path := Envelope.path message;
     Envelope.headers := Envelope.headers message;
     Envelope.body := Envelope.body message;
     Envelope.query := Envelope.query message;
     Envelope.statusCode := None; Envelope.error := None |}.

(** [`req_${++this.requestId}_${Date.now()}`], given the incremented counter. *)
Definition generated_id (counter : nat) (now : N) : string :=
  "req_" +:+ pretty counter +:+ "_" +:+ pretty now.

(** [handleRequest(ws, message)].  The counter is incremented only when
    the right operand of [||] is evaluated. *)
Definition handleRequest (now : N) (ws : conn) (message : envelope)
    (s : state) : state * list effect :=
  match master s with
  | None => (s, [Send ws (master_unavailable (Envelope.requestId message))])
  | Some m =>
    let supplied := truthy_str (Envelope.requestId message) in
    let counter := if supplied then requestId s else S (requestId s) in
    let rid := str_or (Envelope.requestId message) (generated_id counter now) in
    ({| clients := clients s; master := master s; requestId := counter;
        pendingRequests :=
          <[rid := {| clientWs := ws; originalRequest := message |}]>
            (pendingRequests s);
        ws_clientId := ws_clientId s |},
     [Send m (forwardMessage rid message)])
  end.

(** [responseMessage] of [handleResponse]. *)
Definition responseMessage (message : envelope) : envelope :=
  {| Envelope.type := Some "response"; Envelope.role := None;
     Envelope.clientId := None;
     Envelope.requestId := Envelope.requestId message;
     Envelope.method := None; Envelope.path := None;
     Envelope.headers := Envelope.headers message;
     Envelope.body := Envelope.body message;
     Envelope.query := None;
     Envelope.statusCode := Envelope.statusCode message;
     Envelope.error := None |}.

(** [this.pendingRequests.get(message.requestId)]: a missing
    [requestId] is the key [undefined], which is never stored. *)
Definition get_pending (s : state) (message : envelope) : option pending :=
  match Envelope.requestId message with
  | Some rid => pendingRequests s !! rid
  | None => None
  end.

Definition delete_pending (s : state) (message : envelope) : gmap string pending :=
  match Envelope.requestId message with
  | Some rid => delete rid (pendingRequests s)
  | None => pendingRequests s
  end.

(** [handleResponse(ws, message)]. *)
Definition handleResponse (ws : conn) (message : envelope)
    (s : state) : state * list effect :=
  if decide (master s = Some ws) then
    match get_pending s message with
    | None => (s, [])
    | Some pendingRequest =>
      ({| clients := clients s; master := master s; requestId := requestId s;
          pendingRequests := delete_pending s message;
          ws_clientId := ws_clientId s |},
       [Send (clientWs pendingRequest) (responseMessage message)])
    end
  else (s, []).

(** One turn of the [for ... of this.pendingRequests.entries()] loop of
    [handleDisconnection]. *)
Definition purge_step (ws : conn) (acc : gmap string pending)
    (entry : string * pending) : gmap string pending :=
  if decide (clientWs (snd entry) = ws) then delete (fst entry) acc else acc.

(** The whole loop, over the entries the map holds when it starts. *)
Definition purge (ws : conn) (p : gmap string pending) : gmap string pending :=
  foldl (purge_step ws) p (map_to_list p).

(** [handleDisconnection(ws)]. *)
Definition handleDisconnection (ws : conn) (s : state) : state * list effect :=
  let s1 :=
    if decide (master s = Some ws) then
      {| clients := clients s; master := None; requestId := requestId s;
         pendingRequests := pendingRequests s; ws_clientId := ws_clientId s |}
    else if truthy_str (ws_clientId s !! ws) then
      {| clients :=
           match ws_clientId s !! ws with
           | Some cid => delete cid (clients s)
           | None => clients s
           end;
         master := master s; requestId := requestId s;
         pendingRequests := pendingRequests s; ws_clientId := ws_clientId s |}
    else s in
  ({| clients := clients s1; master := master s1; requestId := requestId s1;
      pendingRequests := purge ws (pendingRequests s1);
      ws_clientId := ws_clientId s1 |}, []).

(** [handleMessage(ws, message)]: the [switch] on [message.type]. *)
Definition handleMessage (now : N) (ws : conn) (message : envelope)
    (s : state) : state * list effect :=
  if decide (Envelope.type message = Some "register") then
    handleRegistration now ws message s
  else if decide (Envelope.type message = Some "request") then
    handleRequest now ws message s
  else if decide (Envelope.type message = Some "response") then
    handleResponse ws message s
  else (s, []).

(** The outcome of [JSON.parse(data)]: a [SyntaxError], the value
    [null] (on which [message.type] throws a [TypeError]), or any other
    value, seen through the properties the broker reads (a number, a
    string, a boolean or an array has none of them). *)
Inductive parsed : Type :=
| SyntaxError
| Null
| Value (m : envelope).

(** The object literal [{ error: 'Invalid JSON message' }] of the
    [catch] clause. *)
Definition invalid_json : envelope :=
  {| Envelope.type := None; Envelope.role := None;
     Envelope.clientId := None; Envelope.requestId := None;
     Envelope.method := None; Envelope.path := None;
     Envelope.headers := None; Envelope.body := None;
     Envelope.query := None; Envelope.statusCode := None;
     Envelope.error := Some "Invalid JSON message" |}.

(** The ['message'] listener installed by [setupServer]: [try] parse and
    dispatch, [catch] any exception by replying on the same socket. *)
Definition on_message (now : N) (ws : conn) (data : parsed)
    (s : state) : state * list effect :=
  match data with
  | SyntaxError | Null => (s, [Send ws invalid_json])
  | Value message => handleMessage now ws message s
  end.

(** What the event loop delivers to the listeners of [setupServer]. *)
Inductive event : Type :=
| Connection (ws : conn)
| Message (now : N) (ws : conn) (data : parsed)
| SocketClose (ws : conn)
| SocketError (ws : conn).

Definition step (e : event) (s : state) : state * list effect :=
  match e with
  | Connection _ => (s, [])
  | Message now ws data => on_message now ws data s
  | SocketClose ws | SocketError ws => handleDisconnection ws s
  end.

(** The events are handled one after the other (single event loop). *)
Fixpoint run (es : list event) (s : state) : state * list effect :=
  match es with
  | [] => (s, [])
  | e :: es' =>
    let '(s1, out1) := step e s in
    let '(s2, out2) := run es' s1 in
    (s2, out1 ++ out2)
  end.

(** A state the broker can be in: some events handled from [initial]. *)
Definition reachable (s : state) : Prop :=
  ∃ es, (run es initial).1 = s.

(** The socket a frame arrived on, if the event is a frame. *)
Definition sender (e : event) : option conn :=
  match e with
  | Message _ ws _ => Some ws
  | _ => None
  end.

(** Every key of [this.clients] is a truthy string. *)
Definition client_keys_truthy (s : state) : Prop :=
  ∀ k c, clients s !! k = Some c → k ≠ "".

End Broker.

(** * The egress executor (src/master/app.js) *)
Module Master.

(** [hay.includes(needle)] on strings. *)
Fixpoint includes (needle hay : string) : bool :=
  String.prefix needle hay ||
  match hay with
  | EmptyString => false
  | String _ rest => includes needle rest
  end.

(** [new URL(path, this.targetApiUrl)] with the appended search
    parameters; the resolution itself is the URL library's. *)
Record target_url : Type := {
  base : string;
  relative : option string;
  searchParams : list (string * json)
}.

(** The [options] object handed to [http.request]. *)
Record request_options : Type := {
  method : option string;
  headers : gmap string json;
  timeout : Z
}.

(** The outbound call: where it goes, its options, and the arguments of
    the [req.write] calls made before [req.end()]. *)
Record http_call : Type := {
  targetUrl : target_url;
  options : request_options;
  written : list json
}.

(** The object spread [{ ...headers }]: a fresh copy, empty for a
    missing [headers]. *)
Definition spread (headers : option (gmap string json)) : gmap string json :=
  default ∅ headers.

(** The seven [delete options.headers[...]] statements, in order. *)
Definition remove_problematic (h0 : gmap string json) : gmap string json :=
  let h1 := delete "host" h0 in
  let h2 := delete "content-length" h1 in
  let h3 := delete "sec-websocket-key" h2 in
  let h4 := delete "sec-websocket-version" h3 in
  let h5 := delete "sec-websocket-extensions" h4 in
  let h6 := delete "upgrade" h5 in
  delete "connection" h6.

(** The [options] object of [forwardRequest] once the problematic
    headers are removed. *)
Definition prepare_options (requestMessage : envelope) : request_options :=
  {| method := Envelope.method requestMessage;
     headers := remove_problematic (spread (Envelope.headers requestMessage));
     timeout := 30000 |}.

(** [method === 'POST' || method === 'PUT' || method === 'PATCH']. *)
Definition has_body_method (method : option string) : bool :=
  bool_decide (method = Some "POST") ||
  bool_decide (method = Some "PUT") ||
  bool_decide (method = Some "PATCH").

Section Executor.

(** The two built-ins the executor calls on bodies. *)
Variable JSON_stringify : json → string.
Variable JSON_parse : string → option json.

(** The [req.write] calls of [forwardRequest]. *)
Definition write_body (method : option string) (body : option json) : list json :=
  match body with
  | Some b =>
    if truthy_json b && has_body_method method then
      if typeof_object b then [JStr (JSON_stringify b)] else [b]
    else []
  | None => []
  end.

(** The synchronous part of [forwardRequest(requestMessage)]: the call
    issued against the target. *)
Definition forwardRequest (targetApiUrl : string) (requestMessage : envelope)
    : http_call :=
  {| targetUrl :=
       {| base := targetApiUrl;
          relative := Envelope.path requestMessage;
          searchParams := default [] (Envelope.query requestMessage) |};
     options := prepare_options requestMessage;
     written :=
       write_body (Envelope.method requestMessage) (Envelope.body requestMessage) |}.

(** How the real call ends once it is issued: the response's ['end']
    event, an ['error'] event with the error's message, or the ['timeout']
    event after [options.timeout] milliseconds. *)
Inductive outcome : Type :=
| Ended (statusCode : Z) (headers : gmap string json) (responseBody : string)
| Errored (message : string)
| TimedOut.

(** The object passed to [resolve]. *)
Record response : Type := {
  res_statusCode : Z;
  res_headers : gmap string json;
  res_body : json
}.

(** [res.headers['content-type'] || '']. *)
Definition contentType (headers : gmap string json) : string :=
  match headers !! "content-type" with
  | Some (JStr s) => s
  | _ => ""
  end.

(** The ['end'] listener's [parsedBody]. *)
Definition parsedBody (headers : gmap string json) (responseBody : string) : json :=
  if includes "application/json" (contentType headers)
     && negb (String.eqb responseBody "") then
    match JSON_parse responseBody with
    | Some v => v
    | None => JStr responseBody
    end
  else JStr responseBody.

(** What the promise of [forwardRequest] settles to: [inl] resolved,
    [inr] rejected with an error carrying that message. *)
Definition settle (o : outcome) : response + string :=
  match o with
  | Ended statusCode headers responseBody =>
    inl {| res_statusCode := statusCode; res_headers := headers;
           res_body := parsedBody headers responseBody |}
  | Errored message => inr message
  | TimedOut => inr "Request timeout"
  end.

(** [responseMessage] of [sendResponse(requestId, response)]. *)
Definition sendResponse (requestId : option string) (response : response)
    : envelope :=
  {| Envelope.type := Some "response"; Envelope.role := None;
     Envelope.clientId := None; Envelope.requestId := requestId;
     Envelope.method := None; Envelope.path := None;
     Envelope.headers := Some (res_headers response);
     Envelope.body := Some (res_body response);
     Envelope.query := None;
     Envelope.statusCode := Some (res_statusCode response);
     Envelope.error := None |}.

(** [errorMessage] of [sendError(requestId, error)]. *)
Definition sendError (requestId : option string) (error : string) : envelope :=
  {| Envelope.type := Some "response"; Envelope.role := None;
     Envelope.clientId := None; Envelope.requestId := requestId;
     Envelope.method := None; Envelope.path := None;
     Envelope.headers := Some {[ "content-type" := JStr "application/json" ]};
     Envelope.body := Some (JObj [("error", JStr error)]);
     Envelope.query := None;
     Envelope.statusCode := Some 500%Z;
     Envelope.error := None |}.

(** What the executor does for one request. *)
Inductive effect : Type :=
| HttpRequest (call : http_call)
| WsSend (m : envelope).

(** [handleRequest(message)], given how the real call ends: the
    [try] branch sends the response, the [catch] branch the error. *)
Definition handleRequest (targetApiUrl : string) (message : envelope)
    (o : outcome) : list effect :=
  [HttpRequest (forwardRequest targetApiUrl message);
   WsSend match settle o with
          | inl response => sendResponse (Envelope.requestId message) response
          | inr error => sendError (Envelope.requestId message) error
          end].

(** [handleMessage(message)]: only ['request'] frames do anything. *)
Definition handleMessage (targetApiUrl : string) (message : envelope)
    (o : outcome) : list effect :=
  if decide (Envelope.type message = Some "request") then
    handleRequest targetApiUrl message o
  else [].

End Executor.

End Master.

(** * The ingress adapter (src/client/app.js) *)
Module Client.

(** An Express response object [res], compared by identity. *)
Abbreviation handle := nat (only parsing).

(** The value returned by [setTimeout]. *)
Abbreviation timer := nat (only parsing).

(** The calls the adapter makes on a response object. *)
Inductive call : Type :=
| Status (code : option Z)
| SetHeader (key : string) (value : json)
| SendBody (body : json)
| End
| Json (body : json).

Inductive effect : Type :=
| Respond (res : handle) (c : call)
| WsSend (m : envelope).

(** A value of [this.pendingRequests]: the response object together
    with the [timeout] property that [handleRequest] writes on it. *)
Record entry : Type := {
  res : handle;
  timeout : option timer
}.

(** A pending [setTimeout]: its delay in milliseconds and the
    [requestId] and [res] its callback closes over. *)
Record armed : Type := {
  delay : Z;
  for_requestId : string;
  for_res : handle
}.

(** The fields of [ClientProxy] the handlers touch, and the request
    timers that are armed. *)
Record state : Type := {
  isConnected : bool;
  pendingRequests : gmap string entry;
  timers : gmap timer armed;
  next_timer : timer
}.

Definition initial : state :=
  {| isConnected := false; pendingRequests := ∅; timers := ∅; next_timer := 0 |}.

(** The properties of an Express request that [handleRequest] reads. *)
Record request : Type := {
  method : option string;
  path : option string;
  headers : gmap string json;
  body : option json;
  query : list (string * json)
}.

Definition error_body (text : option string) : json :=
  JObj match text with
       | Some e => [("error", JStr e)]
       | None => []
       end.

Definition requestData (requestId : string) (req : request) : envelope :=
  {| Envelope.type := Some "request"; Envelope.role := None;
     Envelope.clientId := None; Envelope.requestId := Some requestId;
     Envelope.method := method req; Envelope.path := path req;
     Envelope.headers := Some (headers req); Envelope.body := body req;
     Envelope.query := Some (query req);
     Envelope.statusCode := None; Envelope.error := None |}.

(** [handleRequest(req, res)]; [requestId] is the value of [uuidv4()]. *)
Definition handleRequest (requestId : string) (req : request) (res : handle)
    (s : state) : state * list effect :=
  if negb (isConnected s) then
    (s, [Respond res (Status (Some 503%Z));
         Respond res (Json (error_body
           (Some "Service unavailable - not connected to relay server")))])
  else
    let timeout := next_timer s in
    ({| isConnected := isConnected s;
        pendingRequests :=
          <[requestId := {| res := res; timeout := Some timeout |}]>
            (pendingRequests s);
        timers :=
          <[timeout := {| delay := 30000; for_requestId := requestId;
                          for_res := res |}]> (timers s);
        next_timer := S timeout |},
     [WsSend (requestData requestId req)]).

(** The callback handed to [setTimeout] by [handleRequest]. *)
Definition on_timeout (requestId : string) (res : handle)
    (s : state) : state * list effect :=
  match pendingRequests s !! requestId with
  | Some _ =>
    ({| isConnected := isConnected s;
        pendingRequests := delete requestId (pendingRequests s);
        timers := timers s; next_timer := next_timer s |},
     [Respond res (Status (Some 504%Z));
      Respond res (Json (error_body (Some "Request timeout")))])
  | None => (s, [])
  end.

(** [this.pendingRequests.get(message.requestId)]. *)
Definition get_pending (s : state) (message : envelope) : option entry :=
  match Envelope.requestId message with
  | Some rid => pendingRequests s !! rid
  | None => None
  end.

(** [if (pendingRequest.timeout) clearTimeout(pendingRequest.timeout)]
    followed, at the end of the handler, by
    [this.pendingRequests.delete(message.requestId)]. *)
Definition settle (s : state) (message : envelope) (pendingRequest : entry) : state :=
  {| isConnected := isConnected s;
     pendingRequests :=
       match Envelope.requestId message with
       | Some rid => delete rid (pendingRequests s)
       | None => pendingRequests s
       end;
     timers :=
       match timeout pendingRequest with
       | Some t => delete t (timers s)
       | None => timers s
       end;
     next_timer := next_timer s |}.

(** The [Object.entries(message.headers).forEach] of [handleResponse]. *)
Definition set_headers (res : handle) (headers : option (gmap string json))
    : list effect :=
  match headers with
  | Some h => (λ kv, Respond res (SetHeader kv.1 kv.2)) <$> map_to_list h
  | None => []
  end.

(** [handleResponse(message)]. *)
Definition handleResponse (message : envelope) (s : state) : state * list effect :=
  match get_pending s message with
  | None => (s, [])
  | Some pendingRequest =>
    let res := res pendingRequest in
    (settle s message pendingRequest,
     Respond res (Status (Envelope.statusCode message))
     :: set_headers res (Envelope.headers message)
     ++ [Respond res match Envelope.body message with
                     | Some b => if truthy_json b then SendBody b else End
                     | None => End
                     end])
  end.

(** [handleError(message)]. *)
Definition handleError (message : envelope) (s : state) : state * list effect :=
  match get_pending s message with
  | None => (s, [])
  | Some pendingRequest =>
    let res := res pendingRequest in
    (settle s message pendingRequest,
     [Respond res (Status (Some 500%Z));
      Respond res (Json (error_body (Envelope.error message)))])
  end.

(** [handleMessage(message)]. *)
Definition handleMessage (message : envelope) (s : state) : state * list effect :=
  if decide (Envelope.type message = Some "response") then
    handleResponse message s
  else if decide (Envelope.type message = Some "error") then
    handleError message s
  else (s, []).

(** What the event loop delivers: an HTTP request reaching the
    catch-all route (with the identifier [uuidv4()] will return), a
    parsed frame from the broker, or an armed timer going off. *)
Inductive event : Type :=
| Http (requestId : string) (req : request) (res : handle)
| Frame (message : envelope)
| TimerFired (t : timer).

Definition step (e : event) (s : state) : state * list effect :=
  match e with
  | Http requestId req res => handleRequest requestId req res s
  | Frame message => handleMessage message s
  | TimerFired t =>
    match timers s !! t with
    | Some a =>
      on_timeout (for_requestId a) (for_res a)
        {| isConnected := isConnected s; pendingRequests := pendingRequests s;
           timers := delete t (timers s); next_timer := next_timer s |}
    | None => (s, [])
    end
  end.

Fixpoint run (es : list event) (s : state) : state * list effect :=
  match es with
  | [] => (s, [])
  | e :: es' =>
    let '(s1, out1) := step e s in
    let '(s2, out2) := run es' s1 in
    (s2, out1 ++ out2)
  end.


End Client.

(** * Frames and traces used in the examples below *)

(** [{ type: 'register', role, clientId }]. *)
Definition register_as (role : string) (clientId : option string) : envelope :=
  {| Envelope.type := Some "register"; Envelope.role := Some role;
     Envelope.clientId := clientId; Envelope.requestId := None;
     Envelope.method := None; Envelope.path := None;
     Envelope.headers := None; Envelope.body := None;
     Envelope.query := None; Envelope.statusCode := None;
     Envelope.error := None |}.

(** A GET Request frame for [path] that carries the correlation id [rid]. *)
Definition get_request (rid : string) (path : string) : envelope :=
  {| Envelope.type := Some "request"; Envelope.role := None;
     Envelope.clientId := None; Envelope.requestId := Some rid;
     Envelope.method := Some "GET"; Envelope.path := Some path;
     Envelope.headers := Some ∅; Envelope.body := None;
     Envelope.query := None; Envelope.statusCode := None;
     Envelope.error := None |}.

(** A broker with egress [0], ingress [1] registered as ["c1"], and one
    request ["r1"] of connection [1] in flight. *)
Definition broker_one_in_flight : Broker.state :=
  {| Broker.clients := {[ "c1" := 1 ]};
     Broker.master := Some 0;
     Broker.requestId := 0;
     Broker.pendingRequests :=
       {[ "r1" := {| Broker.clientWs := 1;
                     Broker.originalRequest := Envelope.empty |} ]};
     Broker.ws_clientId := {[ 1 := "c1" ]} |}.

(** A Response frame for correlation id [rid] with status 200. *)
Definition response_200 (rid : string) : envelope :=
  {| Envelope.type := Some "response"; Envelope.role := None;
     Envelope.clientId := None; Envelope.requestId := Some rid;
     Envelope.method := None; Envelope.path := None;
     Envelope.headers := Some ∅; Envelope.body := Some (JStr "ok");
     Envelope.query := None; Envelope.statusCode := Some 200%Z;
     Envelope.error := None |}.

(** Connection [7] registers as egress and then sends a Request itself. *)
Definition egress_sends_request : list Broker.event :=
  [Broker.Connection 7;
   Broker.Message 100 7 (Broker.Value (register_as "master" None));
   Broker.Message 101 7 (Broker.Value (get_request "r" "/status"))].

(** Egress [7] is registered; the first frame of the new connection [1]
    is a Request. *)
Definition request_before_register : list Broker.event :=
  [Broker.Connection 7;
   Broker.Message 100 7 (Broker.Value (register_as "master" None));
   Broker.Connection 1;
   Broker.Message 101 1 (Broker.Value (get_request "r" "/status"))].

(** Egress [7] is registered and connection [1] has a Request ["r"] in
    flight. *)
Definition first_request_pending : list Broker.event :=
  [Broker.Message 100 7 (Broker.Value (register_as "master" None));
   Broker.Message 101 1 (Broker.Value (get_request "r" "/a"))].

(** ... then connection [2] sends a different Request under the same id. *)
Definition same_id_twice : list Broker.event :=
  first_request_pending
  ++ [Broker.Message 102 2 (Broker.Value (get_request "r" "/b"))].

(** Connection [1] registers as ingress under ["a"], then again under
    ["b"]. *)
Definition registers_twice : list Broker.event :=
  [Broker.Connection 1;
   Broker.Message 100 1 (Broker.Value (register_as "client" (Some "a")));
   Broker.Message 101 1 (Broker.Value (register_as "client" (Some "b")))].

(** Egress [7], ingress [1] registered as ["a"] with Request ["r"] in
    flight, ingress [2] registered as ["b"] with Request ["q"] in flight. *)
Definition two_ingress_busy : list Broker.event :=
  [Broker.Message 100 7 (Broker.Value (register_as "master" None));
   Broker.Message 101 1 (Broker.Value (register_as "client" (Some "a")));
   Broker.Message 102 2 (Broker.Value (register_as "client" (Some "b")));
   Broker.Message 103 1 (Broker.Value (get_request "r" "/a"));
   Broker.Message 104 2 (Broker.Value (get_request "q" "/b"))].

(** Stand-ins for the built-ins [JSON.stringify] and [JSON.parse] in the
    examples, none of which depends on the text or the value they give. *)
Definition stringify_stub : json → string := λ _, "".
Definition parse_stub : string → option json := λ _, None.



(** A GET Request frame whose headers ask for a persistent connection. *)
Definition get_keep_alive : envelope :=
  {| Envelope.type := Some "request"; Envelope.role := None;
     Envelope.clientId := None; Envelope.requestId := Some "r";
     Envelope.method := Some "GET"; Envelope.path := Some "/status";
     Envelope.headers :=
       Some {[ "connection" := JStr "keep-alive"; "host" := JStr "localhost:9983";
               "accept" := JStr "*/*" ]};
     Envelope.body := None;
     Envelope.query := None; Envelope.statusCode := None;
     Envelope.error := None |}.

(** An ingress adapter that is connected to the broker and idle. *)
Definition client_connected : Client.state :=
  {| Client.isConnected := true; Client.pendingRequests := ∅;
     Client.timers := ∅; Client.next_timer := 0 |}.

(** The Express request [GET /status]. *)
Definition http_get_status : Client.request :=
  {| Client.method := Some "GET"; Client.path := Some "/status";
     Client.headers := {[ "accept" := JStr "*/*" ]};
     Client.body := Some (JObj []); Client.query := [] |}.


(** * The adapter's link to the broker (src/client/app.js, [connectToServer]) *)
Module ClientLink.

(** What the adapter does: the effects of the handlers,
    [res.sendStatus(code)], and
    [setTimeout(() => this.connectToServer(), delay)]. *)
Inductive effect : Type :=
| Do (e : Client.effect)
| SendStatus (res : nat) (code : Z)
| Reconnect (delay : Z).

(** [this.isConnected = b]. *)
Definition set_connected (b : bool) (s : Client.state) : Client.state :=
  {| Client.isConnected := b;
     Client.pendingRequests := Client.pendingRequests s;
     Client.timers := Client.timers s;
     Client.next_timer := Client.next_timer s |}.

(** The frame sent by the ['open'] listener; [uuid] is the value of
    [uuidv4()]. *)
Definition register_frame (uuid : string) : envelope :=
  register_as "client" (Some ("client_" +:+ uuid)).

(** What the event loop delivers to the adapter: the four listeners that
    [connectToServer] installs on the socket, the reconnect timer running
    [connectToServer] again, an HTTP request (with a body the parsers
    accept) entering the middleware chain of [setupExpress], and a request
    timer going off. *)
Inductive event : Type :=
| Open (uuid : string)
| Data (data : Broker.parsed)
| Close
| Error
| Reconnecting
| Http (requestId : string) (req : Client.request) (res : nat)
| TimerFired (t : nat).

Definition lift (r : Client.state * list Client.effect)
    : Client.state * list effect :=
  (r.1, Do <$> r.2).

(** The three [res.header] calls of the CORS middleware. *)
Definition cors_headers (res : nat) : list effect :=
  [Do (Client.Respond res
         (Client.SetHeader "Access-Control-Allow-Origin" (JStr "*")));
   Do (Client.Respond res
         (Client.SetHeader "Access-Control-Allow-Methods"
            (JStr "GET, POST, PUT, DELETE, OPTIONS")));
   Do (Client.Respond res
         (Client.SetHeader "Access-Control-Allow-Headers"
            (JStr "Origin, X-Requested-With, Content-Type, Accept, Authorization")))].

(** The middleware chain for one request: the CORS headers, then
    [sendStatus(200)] for OPTIONS and [next()] into the catch-all route,
    that is [handleRequest], for every other method. *)
Definition on_request (requestId : string) (req : Client.request) (res : nat)
    (s : Client.state) : Client.state * list effect :=
  let r :=
    if decide (Client.method req = Some "OPTIONS") then
      (s, [SendStatus res 200])
    else lift (Client.handleRequest requestId req res s) in
  (r.1, cors_headers res ++ r.2).

(** The ['message'] listener catches what [JSON.parse] and
    [handleMessage] throw and only logs it. *)
Definition step (e : event) (s : Client.state) : Client.state * list effect :=
  match e with
  | Open uuid =>
    (set_connected true s, [Do (Client.WsSend (register_frame uuid))])
  | Data Broker.SyntaxError | Data Broker.Null => (s, [])
  | Data (Broker.Value message) => lift (Client.handleMessage message s)
  | Close => (set_connected false s, [Reconnect 5000])
  | Error => (set_connected false s, [])
  | Reconnecting => (s, [])
  | Http requestId req res => on_request requestId req res s
  | TimerFired t => lift (Client.step (Client.TimerFired t) s)
  end.

Fixpoint run (es : list event) (s : Client.state) : Client.state * list effect :=
  match es with
  | [] => (s, [])
  | e :: es' =>
    let '(s1, out1) := step e s in
    let '(s2, out2) := run es' s1 in
    (s2, out1 ++ out2)
  end.

(** A state the adapter can be in. *)
Definition reachable (s : Client.state) : Prop :=
  ∃ es, (run es Client.initial).1 = s.

Definition is_open (e : event) : bool :=
  match e with Open _ => true | _ => false end.

Definition is_close (e : event) : bool :=
  match e with Close => true | _ => false end.

(** The delays of the reconnections scheduled in [out]. *)
Definition reconnect_delays (out : list effect) : list Z :=
  omap (λ x, match x with Reconnect d => Some d | _ => None end) out.

(** The frames sent to the broker in [out]. *)
Definition frames_sent (out : list effect) : list envelope :=
  omap (λ x, match x with Do (Client.WsSend m) => Some m | _ => None end) out.


End ClientLink.

(** * The executor's link to the broker (src/master/app.js, [connectToServer]) *)
Module MasterLink.

(** The one field of [MasterProxy] the listeners write. *)
Record state : Type := { isConnected : bool }.

Definition initial : state := {| isConnected := false |}.

Inductive effect : Type :=
| Do (e : Master.effect)
| Reconnect (delay : Z).

(** The frame sent by the ['open'] listener. *)
Definition register_frame : envelope := register_as "master" None.

(** The listeners on the socket and the reconnect timer; a frame comes
    with the way the real call it may trigger will end. *)
Inductive event : Type :=
| Open
| Data (data : Broker.parsed) (o : Master.outcome)
| Close
| Error
| Reconnecting.

Section Link.

Variable JSON_stringify : json → string.
Variable JSON_parse : string → option json.
Variable targetApiUrl : string.

Definition step (e : event) (s : state) : state * list effect :=
  match e with
  | Open => ({| isConnected := true |}, [Do (Master.WsSend register_frame)])
  | Data Broker.SyntaxError _ | Data Broker.Null _ => (s, [])
  | Data (Broker.Value message) o =>
    (s, Do <$> Master.handleMessage JSON_stringify JSON_parse targetApiUrl message o)
  | Close => ({| isConnected := false |}, [Reconnect 5000])
  | Error => ({| isConnected := false |}, [])
  | Reconnecting => (s, [])
  end.

Fixpoint run (es : list event) (s : state) : state * list effect :=
  match es with
  | [] => (s, [])
  | e :: es' =>
    let '(s1, out1) := step e s in
    let '(s2, out2) := run es' s1 in
    (s2, out1 ++ out2)
  end.

End Link.

Definition is_open (e : event) : bool :=
  match e with Open => true | _ => false end.

Definition is_close (e : event) : bool :=
  match e with Close => true | _ => false end.

(** The delays of the reconnections scheduled in [out]. *)
Definition reconnect_delays (out : list effect) : list Z :=
  omap (λ x, match x with Reconnect d => Some d | _ => None end) out.

(** The register frames sent in [out]. *)
Definition registrations (out : list effect) : list envelope :=
  omap (λ x, match x with
             | Do (Master.WsSend m) =>
               if decide (Envelope.type m = Some "register") then Some m else None
             | _ => None
             end) out.

End MasterLink.

(** A broker whose only history is the registration of egress [7]. *)
Definition broker_with_egress : Broker.state :=
  (Broker.run
     [Broker.Message 100 7 (Broker.Value (register_as "master" None))]
     Broker.initial).1.

(** The preflight request [OPTIONS /status]. *)
Definition http_options : Client.request :=
  {| Client.method := Some "OPTIONS"; Client.path := Some "/status";
     Client.headers := {[ "origin" := JStr "http://localhost" ]};
     Client.body := None; Client.query := [] |}.

(** A stand-in for [JSON.parse] that knows one text. *)
Definition parse_one : string → option json :=
  λ text, if decide (text = "[1]") then Some (JArr [JNum 1]) else None.

(** The adapter after its link opened and [GET /status] arrived for the
    response object [4] under the id ["id-1"]. *)
Definition adapter_waiting : Client.state :=
  (ClientLink.run
     [ClientLink.Open "u"; ClientLink.Http "id-1" http_get_status 4]
     Client.initial).1.

(** The broker with egress [7] after it forwarded the Request ["id-1"] of
    socket [1]. *)
Definition broker_forwarded : Broker.state :=
  (Broker.step
     (Broker.Message 101 1
        (Broker.Value (Client.requestData "id-1" http_get_status)))
     broker_with_egress).1.

(** * Predicates used in the properties below *)

From Stdlib Require Import Ascii.


(** Every pending entry of the broker is stored under a truthy key, holds
    a Request frame, and is stored under that frame's own id when the
    frame has a truthy one. *)
Definition pending_keyed_by_request (s : Broker.state) : Prop :=
  ∀ k e,
    Broker.pendingRequests s !! k = Some e →
    k ≠ "" ∧
    Envelope.type (Broker.originalRequest e) = Some "request" ∧
    (truthy_str (Envelope.requestId (Broker.originalRequest e)) = true →
     Envelope.requestId (Broker.originalRequest e) = Some k).

(** Nothing in the broker state refers to the socket [ws]: it is not the
    egress and owns no pending entry. *)
Definition forgotten (ws : nat) (s : Broker.state) : Prop :=
  Broker.master s ≠ Some ws ∧
  ∀ k e, Broker.pendingRequests s !! k = Some e → Broker.clientWs e ≠ ws.


(** [x] relays a Response for the correlation id [rid]. *)
Definition is_relay (rid : string) (x : Broker.effect) : bool :=
  match x with
  | Broker.Send _ m =>
    bool_decide (Envelope.type m = Some "response" ∧
                 Envelope.requestId m = Some rid)
  | Broker.Close _ => false
  end.

(** How many Responses for [rid] the broker relays in [out]. *)
Definition relayed (rid : string) (out : list Broker.effect) : nat :=
  length (filter (λ x, is_relay rid x) out).

(** The event does not store a Request under [rid]: if it is a Request
    frame, the frame carries a truthy id other than [rid]. *)
Definition keeps_id_free (rid : string) (e : Broker.event) : Prop :=
  match e with
  | Broker.Message _ _ (Broker.Value m) =>
    Envelope.type m = Some "request" →
    ∃ r, Envelope.requestId m = Some r ∧ r ≠ "" ∧ r ≠ rid
  | _ => True
  end.







(** The frames of [out] that are addressed to the socket [ws]. *)
Definition sent_to (ws : nat) (out : list Broker.effect) : list envelope :=
  omap (λ x, match x with
             | Broker.Send to m => if decide (to = ws) then Some m else None
             | Broker.Close _ => None
             end) out.

(** * Properties of the broker *)

(** ** The purge loop of [handleDisconnection] *)
Section Purge.

Import Broker.

Implicit Types (p acc : gmap string pending) (l : list (string * pending)).

Lemma purge_loop_absent ws l acc k :
  acc !! k = None → foldl (purge_step ws) acc l !! k = None.
Proof.
  revert acc. induction l as [|[k' e] l IH]; intros acc Hk; [done|].
  simpl. apply IH. unfold purge_step; simpl.
  case_decide; [|done].
  destruct (decide (k' = k)) as [->|Hne].
  - apply lookup_delete_eq.
  - by rewrite lookup_delete_ne.
Qed.

Lemma purge_loop_removes ws l acc k e :
  (k, e) ∈ l → clientWs e = ws → foldl (purge_step ws) acc l !! k = None.
Proof.
  revert acc. induction l as [|[k' e'] l IH]; intros acc Hin Hown.
  - by apply elem_of_nil in Hin.
  - apply elem_of_cons in Hin as [Heq|Hin]; simpl.
    + inversion Heq; subst k' e'. apply purge_loop_absent.
      unfold purge_step; simpl. rewrite decide_True by done.
      apply lookup_delete_eq.
    + by apply IH.
Qed.

Lemma purge_loop_keeps ws l acc k :
  (∀ e, (k, e) ∈ l → clientWs e ≠ ws) →
  foldl (purge_step ws) acc l !! k = acc !! k.
Proof.
  revert acc. induction l as [|[k' e'] l IH]; intros acc Hall; [done|].
  simpl. rewrite IH.
  - unfold purge_step; simpl. case_decide as Hown; [|done].
    destruct (decide (k' = k)) as [->|Hne].
    + exfalso. by apply (Hall e'); [left|].
    + by rewrite lookup_delete_ne.
  - intros e He. apply Hall. by right.
Qed.

(** The loop keeps exactly the entries whose owner is not [ws]. *)
Lemma purge_lookup ws p k :
  purge ws p !! k =
    match p !! k with
    | Some e => if decide (clientWs e = ws) then None else Some e
    | None => None
    end.
Proof.
  unfold purge. destruct (p !! k) as [e|] eqn:Hk.
  - case_decide as Hown.
    + apply purge_loop_removes with e; [|done].
      by apply elem_of_map_to_list.
    + rewrite purge_loop_keeps; [done|].
      intros e' He'. apply elem_of_map_to_list in He'.
      by replace e' with e by congruence.
  - by apply purge_loop_absent.
Qed.

Lemma handleDisconnection_pending ws s :
  pendingRequests (handleDisconnection ws s).1 = purge ws (pendingRequests s).
Proof.
  unfold handleDisconnection; simpl.
  case_decide; [done|]. by destruct (truthy_str _).
Qed.

End Purge.

(** ** Responses arriving at the broker *)
Section BrokerResponses.

Import Broker.

(** C1. A Response that does not come from the registered egress is
    ignored and leaves the pending table as it is; a Response whose
    correlation id is not pending is dropped, table unchanged; otherwise
    one Response frame with the same correlation id, status code, headers
    and body goes to the connection recorded for that id, the entry is
    removed, and any further Response with that id is dropped. *)
Theorem C1_handleResponse_routing (ws : conn) (message : envelope) (s : state) :
  (master s ≠ Some ws → handleResponse ws message s = (s, [])) ∧
  (get_pending s message = None → handleResponse ws message s = (s, [])) ∧
  (∀ owner,
     master s = Some ws → get_pending s message = Some owner →
     ∃ rid fwd s',
       Envelope.requestId message = Some rid ∧
       handleResponse ws message s = (s', [Send (clientWs owner) fwd]) ∧
       Envelope.type fwd = Some "response" ∧
       Envelope.requestId fwd = Some rid ∧
       Envelope.statusCode fwd = Envelope.statusCode message ∧
       Envelope.headers fwd = Envelope.headers message ∧
       Envelope.body fwd = Envelope.body message ∧
       pendingRequests s' = delete rid (pendingRequests s) ∧
       pendingRequests s' !! rid = None ∧
       (∀ ws' again,
          Envelope.requestId again = Some rid →
          handleResponse ws' again s' = (s', []))).
Proof.
  split; [|split].
  - intros Hne. unfold handleResponse. by rewrite decide_False.
  - intros Hnone. unfold handleResponse. rewrite Hnone. by case_decide.
  - intros owner Hm Hget.
    assert (∃ rid, Envelope.requestId message = Some rid) as [rid Hrid].
    { unfold get_pending in Hget. destruct (Envelope.requestId message); eauto.
      discriminate. }
    exists rid, (responseMessage message).
    eexists. split; [done|]. split.
    { unfold handleResponse. rewrite decide_True by done. by rewrite Hget. }
    unfold delete_pending; rewrite Hrid; simpl.
    repeat (split; [done|]).
    split; [apply lookup_delete_eq|].
    intros ws' again Hagain. unfold handleResponse, get_pending; simpl.
    rewrite Hagain, lookup_delete_eq. by case_decide.
Qed.

End BrokerResponses.

Lemma C1_handleResponse_routing_witness :
  Broker.handleResponse 1 (response_200 "r1") broker_one_in_flight
    = (broker_one_in_flight, []) ∧
  Broker.handleResponse 0 (response_200 "r2") broker_one_in_flight
    = (broker_one_in_flight, []) ∧
  ∃ rid fwd s',
    Envelope.requestId (response_200 "r1") = Some rid ∧
    Broker.handleResponse 0 (response_200 "r1") broker_one_in_flight
      = (s', [Broker.Send 1 fwd]) ∧
    Envelope.type fwd = Some "response" ∧
    Envelope.requestId fwd = Some rid ∧
    Envelope.statusCode fwd = Some 200%Z ∧
    Envelope.headers fwd = Some ∅ ∧
    Envelope.body fwd = Some (JStr "ok") ∧
    Broker.pendingRequests s' = delete rid (Broker.pendingRequests broker_one_in_flight) ∧
    Broker.pendingRequests s' !! rid = None ∧
    (∀ ws' again,
       Envelope.requestId again = Some rid →
       Broker.handleResponse ws' again s' = (s', [])).
Proof.
  split; [|split].
  - apply (proj1 (C1_handleResponse_routing 1 (response_200 "r1") broker_one_in_flight)).
    discriminate.
  - apply (proj1 (proj2 (C1_handleResponse_routing 0 (response_200 "r2") broker_one_in_flight))).
    reflexivity.
  - apply (proj2 (proj2 (C1_handleResponse_routing 0 (response_200 "r1") broker_one_in_flight))
             {| Broker.clientWs := 1; Broker.originalRequest := Envelope.empty |}).
    + reflexivity.
    + reflexivity.
Defined.

(** Case analysis along the branches of the broker's handlers. *)
Ltac handlers :=
  unfold Broker.step, Broker.on_message, Broker.handleMessage,
    Broker.handleRegistration, Broker.handleRequest, Broker.handleResponse,
    Broker.handleDisconnection;
  repeat (case_decide || case_match); simpl.

(** ** Traces of the broker and their invariants *)
Section BrokerTraces.

Import Broker.

Lemma run_cons e es s :
  run (e :: es) s =
    ((run es (step e s).1).1, (step e s).2 ++ (run es (step e s).1).2).
Proof.
  simpl. destruct (step e s) as [s1 out1]; simpl.
  by destruct (run es s1).
Qed.

(** A property of states that every handler preserves holds along every
    trace. *)
Lemma run_preserves (P : state → Prop) :
  (∀ e s, P s → P (step e s).1) →
  ∀ es s, P s → P (run es s).1.
Proof.
  intros Hstep es. induction es as [|e es IH]; intros s Hs; [done|].
  rewrite run_cons; simpl. by apply IH, Hstep.
Qed.

Lemma reachable_ind (P : state → Prop) :
  P initial →
  (∀ e s, P s → P (step e s).1) →
  ∀ s, reachable s → P s.
Proof.
  intros Hinit Hstep s [es <-]. by apply run_preserves.
Qed.

(** No handler ever closes a socket. *)
Lemma step_never_closes e s c : Close c ∉ (step e s).2.
Proof.
  handlers; intros Hin;
    repeat (apply elem_of_cons in Hin as [Hin|Hin]; [discriminate|]);
    by apply elem_of_nil in Hin.
Qed.

Lemma run_never_closes es s c : Close c ∉ (run es s).2.
Proof.
  revert s. induction es as [|e es IH]; intros s.
  - apply not_elem_of_nil.
  - rewrite run_cons; simpl. rewrite elem_of_app.
    intros [Hin|Hin]; [by apply step_never_closes in Hin|by apply IH in Hin].
Qed.

(** Only a frame from [ws] itself can make [ws] the egress. *)
Lemma step_master_other e s ws :
  sender e ≠ Some ws → master s ≠ Some ws → master (step e s).1 ≠ Some ws.
Proof.
  destruct e as [c|now c data|c|c]; simpl; intros Hsender Hmaster; [done| | |].
  - destruct data as [| |m]; simpl; [done|done|].
    handlers; try done. congruence.
  - handlers; done.
  - handlers; done.
Qed.

Lemma run_master_other es s ws :
  Forall (λ e, sender e ≠ Some ws) es →
  master s ≠ Some ws → master (run es s).1 ≠ Some ws.
Proof.
  revert s. induction es as [|e es IH]; intros s Hall Hm; [done|].
  apply Forall_cons in Hall as [He Hes].
  rewrite run_cons; simpl. by apply IH, step_master_other.
Qed.

Lemma str_or_nonempty a b : b ≠ "" → str_or a b ≠ "".
Proof.
  intros Hb. unfold str_or. destruct a as [s|]; [|done]. by case_decide.
Qed.

Lemma step_client_keys e s :
  client_keys_truthy s → client_keys_truthy (step e s).1.
Proof.
  unfold client_keys_truthy. intros Hs k c.
  handlers; try apply Hs;
    try (intros [_ Hk]%lookup_delete_Some; by apply Hs in Hk);
    (intros [[<- _]|[_ Hk]]%lookup_insert_Some;
       [by apply str_or_nonempty|by apply Hs in Hk]).
Qed.

Lemma reachable_client_keys s : reachable s → client_keys_truthy s.
Proof.
  apply reachable_ind; [|apply step_client_keys].
  intros k c Hk. simpl in Hk. by rewrite lookup_empty in Hk.
Qed.

End BrokerTraces.

(** ** Requests without an egress, and the egress going away *)
Section BrokerEgress.

Import Broker.

(** C4 (as the code has it).  While no egress is registered a Request is
    answered at once, on the socket it came from, with an Error frame
    (['Master computer not available'], echoing the request's id) and the
    broker state, pending table included, stays as it is.  When the egress
    disconnects the broker empties the egress slot, sends nothing, leaves
    the ingress registry alone and keeps every pending entry owned by
    another connection; only entries the egress connection itself
    originated are purged.  Afterwards Requests get the same Error. *)
Theorem C4_no_egress (now : N) (ws : conn) (message : envelope) (s : state) :
  (master s = None →
     ∃ reply,
       handleRequest now ws message s = (s, [Send ws reply]) ∧
       Envelope.type reply = Some "error" ∧
       Envelope.error reply = Some "Master computer not available" ∧
       Envelope.requestId reply = Envelope.requestId message) ∧
  (master s = Some ws →
     let s' := (handleDisconnection ws s).1 in
     master s' = None ∧
     clients s' = clients s ∧
     (handleDisconnection ws s).2 = [] ∧
     (∀ rid e, pendingRequests s !! rid = Some e → clientWs e ≠ ws →
               pendingRequests s' !! rid = Some e) ∧
     (∀ rid e, pendingRequests s' !! rid = Some e →
               pendingRequests s !! rid = Some e ∧ clientWs e ≠ ws) ∧
     (∀ now' ws' message',
        handleRequest now' ws' message' s' =
          (s', [Send ws' (master_unavailable (Envelope.requestId message'))]))).
Proof.
  split.
  - intros Hm. exists (master_unavailable (Envelope.requestId message)).
    unfold handleRequest. by rewrite Hm.
  - intros Hm.
    assert (master (handleDisconnection ws s).1 = None) as Hnone.
    { unfold handleDisconnection; simpl. by rewrite decide_True. }
    cbv zeta. split; [done|]. split.
    { unfold handleDisconnection; simpl. by rewrite decide_True. }
    split; [done|]. rewrite handleDisconnection_pending.
    split; [|split].
    + intros rid e He Hown. rewrite purge_lookup, He. by rewrite decide_False.
    + intros rid e. rewrite purge_lookup.
      destruct (pendingRequests s !! rid) as [e'|]; [|done].
      case_decide; [done|]. by intros [= ->].
    + intros now' ws' message'. unfold handleRequest at 1. by rewrite Hnone.
Qed.

End BrokerEgress.

Lemma C4_no_egress_witness :
  (∃ reply,
     Broker.handleRequest 5 1 (get_request "r" "/status") Broker.initial
       = (Broker.initial, [Broker.Send 1 reply]) ∧
     Envelope.type reply = Some "error" ∧
     Envelope.error reply = Some "Master computer not available" ∧
     Envelope.requestId reply = Some "r") ∧
  Broker.master (Broker.handleDisconnection 0 broker_one_in_flight).1 = None ∧
  Broker.pendingRequests (Broker.handleDisconnection 0 broker_one_in_flight).1 !! "r1"
    = Some {| Broker.clientWs := 1; Broker.originalRequest := Envelope.empty |}.
Proof.
  split.
  - apply (proj1 (C4_no_egress 5 1 (get_request "r" "/status") Broker.initial)).
    reflexivity.
  - pose proof (proj2 (C4_no_egress 5 0 (get_request "r" "/status")
                         broker_one_in_flight) eq_refl) as (Hm & _ & _ & Hkeep & _).
    split; [exact Hm|].
    apply Hkeep; [reflexivity|]. simpl. lia.
Defined.

(** C4, as stated, fails: the egress connection [7] sent a Request of its
    own, so the entry ["r"] is owned by it, and its disconnection removes
    that entry from the pending table. *)
Lemma C4_counterexample :
  let s := (Broker.run egress_sends_request Broker.initial).1 in
  Broker.master s = Some 7 ∧
  Broker.clientWs <$> Broker.pendingRequests s !! "r" = Some 7 ∧
  Broker.pendingRequests (Broker.handleDisconnection 7 s).1 !! "r" = None ∧
  Broker.pendingRequests (Broker.handleDisconnection 7 s).1
    ≠ Broker.pendingRequests s.
Proof.
  repeat split; by vm_compute.
Qed.

(** ** The first frame of a connection *)
Section BrokerFirstFrame.

Import Broker.

(** C5 (as the code has it).  The broker keeps no record of whether a
    connection has registered: the first frame of a connection [ws] is
    dispatched on its [type] like any later one.  A Request is processed
    (answered with the Error frame when there is no egress, otherwise
    recorded under its id for [ws] and forwarded to the egress); a
    Response is dropped, since a connection that has sent nothing cannot
    be the registered egress; and the broker never closes a socket. *)
Theorem C5_first_frame_dispatched
    (es : list event) (now : N) (ws : conn) (message : envelope) :
  Forall (λ e, sender e ≠ Some ws) es →
  let s := (run es initial).1 in
  let first := Message now ws (Value message) in
  (Envelope.type message = Some "request" →
     match master s with
     | None =>
       step first s =
         (s, [Send ws (master_unavailable (Envelope.requestId message))])
     | Some egress =>
       ∃ rid s',
         step first s = (s', [Send egress (forwardMessage rid message)]) ∧
         pendingRequests s' !! rid =
           Some {| clientWs := ws; originalRequest := message |}
     end) ∧
  (Envelope.type message = Some "response" → step first s = (s, [])) ∧
  (∀ c, Close c ∉ (run (es ++ [first]) initial).2).
Proof.
  intros Hfirst s first. split; [|split].
  - intros Htype. subst first; simpl. unfold handleMessage.
    rewrite decide_False by (rewrite Htype; discriminate).
    rewrite decide_True by done.
    unfold handleRequest. destruct (master s) as [egress|]; [|done].
    eexists _, _. split; [done|]. simpl. apply lookup_insert_eq.
  - intros Htype. subst first; simpl. unfold handleMessage.
    rewrite decide_False by (rewrite Htype; discriminate).
    rewrite decide_False by (rewrite Htype; discriminate).
    rewrite decide_True by done.
    unfold handleResponse. rewrite decide_False; [done|].
    by apply run_master_other.
  - intros c. apply run_never_closes.
Qed.

End BrokerFirstFrame.

Lemma C5_first_frame_dispatched_witness :
  ∃ rid s',
    Broker.step (Broker.Message 101 1 (Broker.Value (get_request "r" "/status")))
       (Broker.run [Broker.Connection 7;
                    Broker.Message 100 7 (Broker.Value (register_as "master" None));
                    Broker.Connection 1] Broker.initial).1
      = (s', [Broker.Send 7 (Broker.forwardMessage rid (get_request "r" "/status"))]) ∧
    Broker.pendingRequests s' !! rid =
      Some {| Broker.clientWs := 1;
              Broker.originalRequest := get_request "r" "/status" |}.
Proof.
  apply (proj1 (C5_first_frame_dispatched
                  [Broker.Connection 7;
                   Broker.Message 100 7 (Broker.Value (register_as "master" None));
                   Broker.Connection 1]
                  101 1 (get_request "r" "/status")
                  ltac:(repeat constructor; discriminate))).
  reflexivity.
Defined.

(** C5, as stated, fails: with egress [7] registered, the first frame of
    connection [1] is a Request; the broker records it in the pending
    table, forwards it to the egress, and closes nothing. *)
Lemma C5_counterexample :
  Forall (λ e, Broker.sender e ≠ Some 1) (take 3 request_before_register) ∧
  (Broker.run request_before_register Broker.initial).2
    = [Broker.Send 7 Broker.registered_master;
       Broker.Send 7 (Broker.forwardMessage "r" (get_request "r" "/status"))] ∧
  Broker.clientWs <$>
    Broker.pendingRequests (Broker.run request_before_register Broker.initial).1 !! "r"
    = Some 1.
Proof.
  split; [repeat constructor; discriminate|].
  split; by vm_compute.
Qed.

(** ** Keys of the pending table *)
Section BrokerKeys.

Import Broker.

(** C6 (as the code has it).  In every reachable state the pending table
    holds at most one entry per correlation id.  A Request handled while
    an egress is registered is stored by a plain [set] under its id (the
    sender-supplied one when it is truthy): every other key keeps its
    entry, a fresh id adds an entry and leaves all existing ones in place,
    and an id that is already pending has its entry replaced by the new
    sender and request -- the broker does not check for reuse. *)
Theorem C6_pending_set (now : N) (ws : conn) (message : envelope) (s : state) :
  (∀ s0, reachable s0 → NoDup (map_to_list (pendingRequests s0)).*1) ∧
  (∀ egress, master s = Some egress →
     let s' := (handleRequest now ws message s).1 in
     ∃ rid,
       (handleRequest now ws message s).2
         = [Send egress (forwardMessage rid message)] ∧
       (truthy_str (Envelope.requestId message) = true →
          Envelope.requestId message = Some rid) ∧
       pendingRequests s' !! rid
         = Some {| clientWs := ws; originalRequest := message |} ∧
       (∀ k, k ≠ rid → pendingRequests s' !! k = pendingRequests s !! k) ∧
       (pendingRequests s !! rid = None →
          pendingRequests s ⊆ pendingRequests s') ∧
       NoDup (map_to_list (pendingRequests s')).*1).
Proof.
  split.
  - intros s0 _. apply NoDup_fst_map_to_list.
  - intros egress Hm. cbv zeta. unfold handleRequest. rewrite Hm; simpl.
    eexists. split; [done|]. split.
    { unfold truthy_str, str_or.
      destruct (Envelope.requestId message) as [r|]; [|done].
      case_decide as Hr; [by rewrite Hr|done]. }
    split; [apply lookup_insert_eq|]. split.
    { intros k Hk. by rewrite lookup_insert_ne. }
    split; [apply insert_subseteq|apply NoDup_fst_map_to_list].
Qed.

End BrokerKeys.

Lemma C6_pending_set_witness :
  ∃ rid,
    (Broker.handleRequest 102 2 (get_request "r" "/b")
       (Broker.run first_request_pending Broker.initial).1).2
      = [Broker.Send 7 (Broker.forwardMessage rid (get_request "r" "/b"))] ∧
    Envelope.requestId (get_request "r" "/b") = Some rid ∧
    Broker.pendingRequests
      (Broker.handleRequest 102 2 (get_request "r" "/b")
         (Broker.run first_request_pending Broker.initial).1).1 !! rid
      = Some {| Broker.clientWs := 2;
                Broker.originalRequest := get_request "r" "/b" |}.
Proof.
  destruct (proj2 (C6_pending_set 102 2 (get_request "r" "/b")
                     (Broker.run first_request_pending Broker.initial).1)
              7 eq_refl) as (rid & Hout & Hsupplied & Hrid & _).
  exists rid. split; [exact Hout|]. split; [|exact Hrid].
  apply Hsupplied. reflexivity.
Defined.

(** C6, as stated, fails: the Request of connection [1] is pending under
    ["r"] and has not been answered when connection [2] sends a different
    Request under the same id; the broker forwards both to the egress
    under ["r"] and the table now records ["r"] for connection [2]. *)
Lemma C6_counterexample :
  Broker.reachable (Broker.run first_request_pending Broker.initial).1 ∧
  Broker.pendingRequests (Broker.run first_request_pending Broker.initial).1 !! "r"
    = Some {| Broker.clientWs := 1;
              Broker.originalRequest := get_request "r" "/a" |} ∧
  (Broker.run same_id_twice Broker.initial).2
    = [Broker.Send 7 Broker.registered_master;
       Broker.Send 7 (Broker.forwardMessage "r" (get_request "r" "/a"));
       Broker.Send 7 (Broker.forwardMessage "r" (get_request "r" "/b"))] ∧
  Broker.pendingRequests (Broker.run same_id_twice Broker.initial).1 !! "r"
    = Some {| Broker.clientWs := 2;
              Broker.originalRequest := get_request "r" "/b" |}.
Proof.
  split; [by eexists|].
  repeat split; by vm_compute.
Qed.

(** ** A connection going away *)
Section BrokerDisconnect.

Import Broker.

(** C7 (as the code has it).  After any connection [ws] disconnects, the
    pending table holds no entry owned by [ws], every entry owned by
    another connection is unchanged and nothing is added.  If [ws] is not
    the registered egress, the ingress-registry entry stored under the
    client id that [ws] carries is deleted; hence, in a reachable state, a
    connection that is not the egress and is registered only under the
    client id it carries is no longer in the registry. *)
Theorem C7_disconnection (ws : conn) (s : state) :
  let s' := (handleDisconnection ws s).1 in
  (∀ rid e, pendingRequests s' !! rid = Some e → clientWs e ≠ ws) ∧
  (∀ rid e, pendingRequests s !! rid = Some e → clientWs e ≠ ws →
            pendingRequests s' !! rid = Some e) ∧
  (∀ rid, pendingRequests s !! rid = None → pendingRequests s' !! rid = None) ∧
  (∀ cid, master s ≠ Some ws → ws_clientId s !! ws = Some cid → cid ≠ "" →
          clients s' = delete cid (clients s)) ∧
  (reachable s → master s ≠ Some ws →
   map_Forall (λ k c, c = ws → ws_clientId s !! ws = Some k) (clients s) →
   ∀ k, clients s' !! k ≠ Some ws).
Proof.
  cbv zeta. rewrite handleDisconnection_pending.
  split; [|split; [|split; [|split]]].
  - intros rid e. rewrite purge_lookup.
    destruct (pendingRequests s !! rid) as [e'|]; [|done].
    case_decide; [done|]. by intros [= <-].
  - intros rid e He Hown. rewrite purge_lookup, He. by rewrite decide_False.
  - intros rid Hrid. by rewrite purge_lookup, Hrid.
  - intros cid Hm Hcid Hne. unfold handleDisconnection; simpl.
    rewrite decide_False by done. rewrite Hcid; simpl.
    by destruct (String.eqb_spec cid "").
  - intros Hreach Hm Honce k Hk.
    pose proof (reachable_client_keys s Hreach) as Hkeys.
    unfold handleDisconnection in Hk; simpl in Hk.
    rewrite decide_False in Hk by done.
    destruct (ws_clientId s !! ws) as [cid|] eqn:Hcid; simpl in Hk.
    + destruct (String.eqb_spec cid "") as [->|Hne]; simpl in Hk.
      * pose proof (Honce k ws Hk eq_refl) as [= <-]. by apply Hkeys in Hk.
      * apply lookup_delete_Some in Hk as [Hcidk Hk].
        pose proof (Honce k ws Hk eq_refl). congruence.
    + pose proof (Honce k ws Hk eq_refl). congruence.
Qed.

End BrokerDisconnect.

Lemma C7_disconnection_witness :
  let s := (Broker.run two_ingress_busy Broker.initial).1 in
  let s' := (Broker.handleDisconnection 1 s).1 in
  Broker.pendingRequests s' !! "r" = None ∧
  Broker.pendingRequests s' !! "q" = Broker.pendingRequests s !! "q" ∧
  Broker.clients s' = delete "a" (Broker.clients s) ∧
  ∀ k, Broker.clients s' !! k ≠ Some 1.
Proof.
  pose proof (C7_disconnection 1 (Broker.run two_ingress_busy Broker.initial).1)
    as (_ & Hkeep & Hnone & Hreg & Hgone).
  cbv zeta. split; [|split; [|split]].
  - vm_compute. reflexivity.
  - rewrite (Hkeep "q" {| Broker.clientWs := 2;
                          Broker.originalRequest := get_request "q" "/b" |}).
    + vm_compute. reflexivity.
    + vm_compute. reflexivity.
    + simpl. lia.
  - apply Hreg.
    + discriminate.
    + vm_compute. reflexivity.
    + discriminate.
  - apply Hgone.
    + eexists. reflexivity.
    + discriminate.
    + apply (bool_decide_unpack _). vm_compute. reflexivity.
Defined.

(** C7, as stated, fails: connection [1] registered as ingress under
    ["a"] and again under ["b"]; when it disconnects only ["b"] is deleted
    and the registry still maps ["a"] to it. *)
Lemma C7_counterexample :
  Broker.clients (Broker.run registers_twice Broker.initial).1 !! "b" = Some 1 ∧
  Broker.master (Broker.run registers_twice Broker.initial).1 = None ∧
  Broker.clients
    (Broker.run (registers_twice ++ [Broker.SocketClose 1]) Broker.initial).1 !! "a"
    = Some 1.
Proof.
  repeat split; by vm_compute.
Qed.

(** ** Payloads that do not parse *)
Section BrokerParse.

Import Broker.

(** C9 (what the code sends).  When [JSON.parse] throws, the broker
    replies on the same socket, closes nothing and leaves its whole state
    as it is; the reply carries an [error] text but no [type] property,
    so it is not tagged as an Error frame. *)
Theorem C9_parse_failure_reply (now : N) (ws : conn) (s : state) :
  ∃ reply,
    step (Message now ws SyntaxError) s = (s, [Send ws reply]) ∧
    Envelope.error reply = Some "Invalid JSON message" ∧
    Envelope.type reply = None ∧
    Envelope.type reply ≠ Some "error" ∧
    Envelope.requestId reply = None.
Proof. by exists invalid_json. Qed.

End BrokerParse.

(** * Properties of the egress executor *)

(** ** Header stripping *)
Section MasterHeaders.

Import Master.

Implicit Types (h : gmap string json) (k : string).

Lemma remove_problematic_removed h k :
  k ∈ ["host"; "content-length"; "sec-websocket-key"; "sec-websocket-version";
       "sec-websocket-extensions"; "upgrade"; "connection"] →
  remove_problematic h !! k = None.
Proof.
  intros Hk. unfold remove_problematic.
  repeat (apply elem_of_cons in Hk as [->|Hk];
          [by repeat (rewrite lookup_delete_eq || rewrite lookup_delete_ne by done)|]).
  by apply elem_of_nil in Hk.
Qed.

Lemma remove_problematic_kept h k :
  k ∉ ["host"; "content-length"; "sec-websocket-key"; "sec-websocket-version";
       "sec-websocket-extensions"; "upgrade"; "connection"] →
  remove_problematic h !! k = h !! k.
Proof.
  rewrite !not_elem_of_cons. intros (?&?&?&?&?&?&?&_).
  unfold remove_problematic. by rewrite !lookup_delete_ne.
Qed.

Lemma remove_problematic_idemp h :
  remove_problematic (remove_problematic h) = remove_problematic h.
Proof.
  apply map_eq. intros k.
  destruct (decide (k ∈ ["host"; "content-length"; "sec-websocket-key";
                         "sec-websocket-version"; "sec-websocket-extensions";
                         "upgrade"; "connection"])) as [Hk|Hk].
  - by rewrite !remove_problematic_removed.
  - by rewrite !remove_problematic_kept.
Qed.

(** C8 (as the code has it).  The headers of the outbound call contain
    none of [host], [content-length], [sec-websocket-key],
    [sec-websocket-version], [sec-websocket-extensions], [upgrade] -- and
    not [connection] either, which the code deletes as well; every key
    other than these seven has the value it has in the inbound map; and
    stripping a stripped map changes nothing. *)
Theorem C8_header_stripping (requestMessage : envelope) :
  let inbound := spread (Envelope.headers requestMessage) in
  let outbound := headers (prepare_options requestMessage) in
  (∀ JSON_stringify url,
     headers (options (forwardRequest JSON_stringify url requestMessage))
       = outbound) ∧
  (∀ k, k ∈ ["host"; "content-length"; "sec-websocket-key";
             "sec-websocket-version"; "sec-websocket-extensions"; "upgrade"] →
        outbound !! k = None) ∧
  outbound !! "connection" = None ∧
  (∀ k, k ∉ ["host"; "content-length"; "sec-websocket-key";
             "sec-websocket-version"; "sec-websocket-extensions"; "upgrade";
             "connection"] →
        outbound !! k = inbound !! k) ∧
  remove_problematic outbound = outbound.
Proof.
  cbv zeta. simpl. split; [done|]. split; [|split; [|split]].
  - intros k Hk. apply remove_problematic_removed.
    rewrite !elem_of_cons in Hk. rewrite !elem_of_cons. tauto.
  - apply remove_problematic_removed. rewrite !elem_of_cons. tauto.
  - intros k Hk. by apply remove_problematic_kept.
  - apply remove_problematic_idemp.
Qed.

End MasterHeaders.

Lemma C8_header_stripping_witness :
  Master.headers (Master.prepare_options get_keep_alive) !! "host" = None ∧
  Master.headers (Master.prepare_options get_keep_alive) !! "accept"
    = Some (JStr "*/*").
Proof.
  pose proof (C8_header_stripping get_keep_alive) as (_ & Hgone & _ & Hkept & _).
  split.
  - apply Hgone. rewrite !elem_of_cons. tauto.
  - rewrite Hkept.
    + vm_compute. reflexivity.
    + rewrite !not_elem_of_cons. repeat split; try discriminate.
      apply not_elem_of_nil.
Defined.

(** C8, as stated, fails: [connection] is not one of the six listed keys,
    the inbound map has it, and the outbound map does not. *)
Lemma C8_counterexample :
  ("connection" ∉ ["host"; "content-length"; "sec-websocket-key";
                   "sec-websocket-version"; "sec-websocket-extensions"; "upgrade"]) ∧
  Master.spread (Envelope.headers get_keep_alive) !! "connection"
    = Some (JStr "keep-alive") ∧
  Master.headers
    (Master.options
       (Master.forwardRequest stringify_stub "http://localhost:8000/"
          get_keep_alive)) !! "connection" = None.
Proof.
  split; [|split; by vm_compute].
  rewrite !not_elem_of_cons. repeat split; try discriminate.
  apply not_elem_of_nil.
Qed.

(** ** Failures of the real call, and the request body *)
Section MasterCalls.

Import Master.

Variable JSON_stringify : json → string.
Variable JSON_parse : string → option json.

(** C2 (as the code has it).  When the real call fails with an error
    carrying [text], or times out after 30 seconds (then [text] is
    ['Request timeout']), the executor sends the broker exactly one frame
    for the request: it has the request's correlation id and carries
    [text], but it is a Response frame (status 500, JSON content type,
    body [{ error: text }]), not an Error frame.  The failure is never
    dropped. *)
Theorem C2_failure_reported
    (url : string) (message : envelope) (o : outcome) (text : string) :
  o = Errored text ∨ (o = TimedOut ∧ text = "Request timeout") →
  timeout (options (forwardRequest JSON_stringify url message)) = 30000%Z ∧
  ∃ reply,
    handleRequest JSON_stringify JSON_parse url message o
      = [HttpRequest (forwardRequest JSON_stringify url message); WsSend reply] ∧
    Envelope.type reply = Some "response" ∧
    Envelope.requestId reply = Envelope.requestId message ∧
    Envelope.statusCode reply = Some 500%Z ∧
    Envelope.headers reply
      = Some {[ "content-type" := JStr "application/json" ]} ∧
    Envelope.body reply = Some (JObj [("error", JStr text)]) ∧
    Envelope.error reply = None.
Proof.
  intros [->|[-> ->]]; (split; [done|]);
    (exists (sendError (Envelope.requestId message) text) ||
     exists (sendError (Envelope.requestId message) "Request timeout"));
    done.
Qed.


End MasterCalls.

Lemma C2_failure_reported_witness :
  Master.timeout
    (Master.options
       (Master.forwardRequest stringify_stub "http://localhost:8000/"
          (get_request "r" "/status"))) = 30000%Z ∧
  ∃ reply,
    Master.handleRequest stringify_stub parse_stub "http://localhost:8000/"
      (get_request "r" "/status") Master.TimedOut
      = [Master.HttpRequest
           (Master.forwardRequest stringify_stub "http://localhost:8000/"
              (get_request "r" "/status"));
         Master.WsSend reply] ∧
    Envelope.type reply = Some "response" ∧
    Envelope.requestId reply = Some "r" ∧
    Envelope.statusCode reply = Some 500%Z ∧
    Envelope.headers reply
      = Some {[ "content-type" := JStr "application/json" ]} ∧
    Envelope.body reply = Some (JObj [("error", JStr "Request timeout")]) ∧
    Envelope.error reply = None.
Proof.
  apply (C2_failure_reported stringify_stub parse_stub
           "http://localhost:8000/" (get_request "r" "/status")
           Master.TimedOut "Request timeout").
  right. split; reflexivity.
Defined.

(** C2, as stated, fails: the real call is refused; the only frame the
    executor sends is tagged ["response"], has no [error] property, and no
    frame tagged ["error"] is sent. *)
Lemma C2_counterexample :
  Master.handleRequest stringify_stub parse_stub "http://localhost:8000/"
    (get_request "r" "/status") (Master.Errored "connect ECONNREFUSED")
    = [Master.HttpRequest
         (Master.forwardRequest stringify_stub "http://localhost:8000/"
            (get_request "r" "/status"));
       Master.WsSend (Master.sendError (Some "r") "connect ECONNREFUSED")] ∧
  Envelope.type (Master.sendError (Some "r") "connect ECONNREFUSED")
    = Some "response" ∧
  Envelope.error (Master.sendError (Some "r") "connect ECONNREFUSED") = None ∧
  ¬ ∃ m,
      Master.WsSend m ∈
        Master.handleRequest stringify_stub parse_stub "http://localhost:8000/"
          (get_request "r" "/status") (Master.Errored "connect ECONNREFUSED") ∧
      Envelope.type m = Some "error".
Proof.
  repeat split.
  intros (m & Hin & Htype). unfold Master.handleRequest in Hin; simpl in Hin.
  apply elem_of_cons in Hin as [Hin|Hin]; [discriminate|].
  apply list_elem_of_singleton in Hin. injection Hin as ->.
  discriminate.
Qed.


(** * Properties of the ingress adapter *)

(** ** The three-way race on a pending HTTP response *)
Section ClientRace.

Import Client.







End ClientRace.


(** * Further properties of the broker *)

(** ** The [||] default on string properties *)

Lemma str_or_supplied a b : truthy_str a = true → a = Some (str_or a b).
Proof.
  unfold truthy_str, str_or. destruct a as [c|]; [|done].
  case_decide as Hc; [by rewrite Hc|done].
Qed.

Lemma str_or_default a b : truthy_str a = false → str_or a b = b.
Proof.
  unfold truthy_str, str_or. destruct a as [c|]; [|done].
  case_decide as Hc; [done|]. by destruct (String.eqb_spec c "").
Qed.

(** ** Registration *)
Section BrokerRegistration.

Import Broker.

(** X1.  Registering as egress is last-wins: the registering socket gets
    the acknowledgement and becomes the egress, registry and pending table
    are untouched; from then on a Response from any other socket (the
    previous egress included) is dropped, while the new egress can answer
    every request that was pending, also those forwarded to the previous
    egress. *)
Theorem X1_egress_last_registered_wins
    (now : N) (ws : conn) (message response : envelope) (s : state) :
  Envelope.role message = Some "master" →
  let s' := (handleRegistration now ws message s).1 in
  (∃ ack,
     (handleRegistration now ws message s).2 = [Send ws ack] ∧
     Envelope.type ack = Some "registered" ∧
     Envelope.role ack = Some "master") ∧
  master s' = Some ws ∧
  clients s' = clients s ∧
  pendingRequests s' = pendingRequests s ∧
  (∀ other, other ≠ ws → handleResponse other response s' = (s', [])) ∧
  (∀ owner,
     get_pending s response = Some owner →
     (handleResponse ws response s').2
       = [Send (clientWs owner) (responseMessage response)]).
Proof.
  intros Hrole. cbv zeta. unfold handleRegistration.
  rewrite decide_True by done. simpl.
  split; [by eexists|]. repeat (split; [done|]). split.
  - intros other Hother. unfold handleResponse; simpl.
    rewrite decide_False; [done|congruence].
  - intros owner Hget. unfold handleResponse; simpl.
    rewrite decide_True by done.
    unfold get_pending in *; simpl. by rewrite Hget.
Qed.

(** X2.  Registering as ingress stores the socket under the client id of
    the frame, or under ['client_' + Date.now()] when the frame has no
    truthy id; the acknowledgement echoes that id, the socket carries it,
    other registry keys, the egress slot and the pending table are
    untouched.  A register frame with any other role changes nothing and
    gets no answer. *)
Theorem X2_client_registration
    (now : N) (ws : conn) (message : envelope) (s : state) :
  (Envelope.role message = Some "client" →
   ∃ cid ack s',
     handleRegistration now ws message s = (s', [Send ws ack]) ∧
     (truthy_str (Envelope.clientId message) = true →
        Envelope.clientId message = Some cid) ∧
     (truthy_str (Envelope.clientId message) = false →
        cid = "client_" +:+ pretty now) ∧
     cid ≠ "" ∧
     Envelope.type ack = Some "registered" ∧
     Envelope.role ack = Some "client" ∧
     Envelope.clientId ack = Some cid ∧
     clients s' !! cid = Some ws ∧
     ws_clientId s' !! ws = Some cid ∧
     (∀ k, k ≠ cid → clients s' !! k = clients s !! k) ∧
     master s' = master s ∧
     pendingRequests s' = pendingRequests s) ∧
  (Envelope.role message ≠ Some "master" →
   Envelope.role message ≠ Some "client" →
   handleRegistration now ws message s = (s, [])).
Proof.
  split.
  - intros Hrole. unfold handleRegistration.
    rewrite decide_False by (rewrite Hrole; discriminate).
    rewrite decide_True by done.
    eexists _, _, _. split; [done|]. simpl.
    split; [|split; [|split]].
    + apply str_or_supplied.
    + intros Hc. by apply str_or_default.
    + by apply str_or_nonempty.
    + repeat (split; [done|]).
      split; [apply lookup_insert_eq|]. split; [apply lookup_insert_eq|].
      split; [|done]. intros k Hk. by rewrite lookup_insert_ne.
  - intros Hm Hc. unfold handleRegistration. by rewrite !decide_False.
Qed.

Lemma handleRegistration_client now ws message cid s :
  Envelope.role message = Some "client" →
  Envelope.clientId message = Some cid → cid ≠ "" →
  handleRegistration now ws message s =
    ({| clients := <[cid := ws]> (clients s); master := master s;
        requestId := requestId s; pendingRequests := pendingRequests s;
        ws_clientId := <[ws := cid]> (ws_clientId s) |},
     [Send ws (registered_client cid)]).
Proof.
  intros Hrole Hcid Hne. unfold handleRegistration.
  rewrite decide_False by (rewrite Hrole; discriminate).
  rewrite decide_True by done.
  rewrite Hcid. unfold str_or. by rewrite decide_False.
Qed.

(** X3.  Client ids are not reserved: a second socket registering under an
    id that is taken takes the registry entry over, and when the first
    socket then disconnects the broker deletes that entry although it now
    belongs to the second socket, which stays connected and keeps carrying
    the id. *)
Theorem X3_client_id_takeover
    (now1 now2 : N) (ws1 ws2 : conn) (m1 m2 : envelope) (cid : string)
    (s : state) :
  Envelope.role m1 = Some "client" → Envelope.clientId m1 = Some cid →
  Envelope.role m2 = Some "client" → Envelope.clientId m2 = Some cid →
  cid ≠ "" → ws1 ≠ ws2 → master s ≠ Some ws1 →
  let s1 := (handleRegistration now1 ws1 m1 s).1 in
  let s2 := (handleRegistration now2 ws2 m2 s1).1 in
  let s3 := (handleDisconnection ws1 s2).1 in
  clients s1 !! cid = Some ws1 ∧
  clients s2 !! cid = Some ws2 ∧
  clients s3 !! cid = None ∧
  ws_clientId s3 !! ws2 = Some cid.
Proof.
  intros Hr1 Hc1 Hr2 Hc2 Hcid Hws Hm. cbv zeta.
  rewrite (handleRegistration_client now1 ws1 m1 cid) by done.
  rewrite (handleRegistration_client now2 ws2 m2 cid) by done. simpl.
  split; [apply lookup_insert_eq|]. split; [apply lookup_insert_eq|].
  unfold handleDisconnection; simpl.
  rewrite decide_False by done.
  rewrite lookup_insert_ne by done. rewrite lookup_insert_eq. simpl.
  destruct (String.eqb_spec cid "") as [|_]; [done|]. simpl.
  split; [apply lookup_delete_eq|apply lookup_insert_eq].
Qed.

End BrokerRegistration.

(** ** Requests and responses in sequence *)
Section BrokerRouting.

Import Broker.

Lemma step_request now ws message s :
  Envelope.type message = Some "request" →
  step (Message now ws (Value message)) s = handleRequest now ws message s.
Proof.
  intros Htype. simpl. unfold handleMessage.
  rewrite decide_False by (rewrite Htype; discriminate).
  by rewrite decide_True.
Qed.

Lemma step_response now ws message s :
  Envelope.type message = Some "response" →
  step (Message now ws (Value message)) s = handleResponse ws message s.
Proof.
  intros Htype. simpl. unfold handleMessage.
  rewrite !decide_False by (rewrite Htype; discriminate).
  by rewrite decide_True.
Qed.

Lemma handleRequest_supplied now ws message rid egress s :
  master s = Some egress →
  Envelope.requestId message = Some rid → rid ≠ "" →
  handleRequest now ws message s =
    ({| clients := clients s; master := master s; requestId := requestId s;
        pendingRequests :=
          <[rid := {| clientWs := ws; originalRequest := message |}]>
            (pendingRequests s);
        ws_clientId := ws_clientId s |},
     [Send egress (forwardMessage rid message)]).
Proof.
  intros Hm Hrid Hne. unfold handleRequest. rewrite Hm, Hrid.
  unfold truthy_str, str_or. rewrite decide_False by done.
  by destruct (String.eqb_spec rid "").
Qed.

Lemma handleResponse_delivers ws message rid owner s :
  master s = Some ws →
  Envelope.requestId message = Some rid →
  pendingRequests s !! rid = Some owner →
  handleResponse ws message s =
    ({| clients := clients s; master := master s; requestId := requestId s;
        pendingRequests := delete rid (pendingRequests s);
        ws_clientId := ws_clientId s |},
     [Send (clientWs owner) (responseMessage message)]).
Proof.
  intros Hm Hrid Hp. unfold handleResponse, get_pending, delete_pending.
  rewrite decide_True by done. by rewrite Hrid, Hp.
Qed.

(** X4.  With an egress registered, a Request carrying the id [rid]
    followed by the egress's Response for [rid] is forwarded to the egress
    and answered to the requesting socket; the id counter is not used, and
    if [rid] was not pending before, the broker is back in the state it
    started from. *)
Theorem X4_request_response_round_trip
    (now now' : N) (ws egress : conn) (rid : string)
    (request response : envelope) (s : state) :
  master s = Some egress →
  Envelope.type request = Some "request" →
  Envelope.requestId request = Some rid → rid ≠ "" →
  Envelope.type response = Some "response" →
  Envelope.requestId response = Some rid →
  ∃ s2,
    run [Message now ws (Value request);
         Message now' egress (Value response)] s
      = (s2, [Send egress (forwardMessage rid request);
              Send ws (responseMessage response)]) ∧
    pendingRequests s2 = delete rid (pendingRequests s) ∧
    requestId s2 = requestId s ∧
    (pendingRequests s !! rid = None → s2 = s).
Proof.
  intros Hm Hreq Hrid Hne Hresp Hrid'.
  rewrite !run_cons, (step_request now ws request) by done.
  rewrite (handleRequest_supplied now ws request rid egress) by done.
  cbn [fst snd]. rewrite (step_response now' egress response) by done.
  rewrite (handleResponse_delivers egress response rid
             {| clientWs := ws; originalRequest := request |})
    by (done || apply lookup_insert_eq).
  cbn [fst snd run app master clients requestId pendingRequests ws_clientId clientWs].
  rewrite delete_insert_eq.
  eexists. split; [done|]. cbn. split; [done|]. split; [done|].
  intros Hnone. rewrite delete_id by done. by destruct s.
Qed.

(** X5.  Responses are matched by id, not by order: with two Requests in
    flight under different ids, the egress answering the second before
    the first has each Response delivered to the socket that sent the
    Request with that id. *)
Theorem X5_out_of_order_responses
    (t1 t2 t3 t4 : N) (ws1 ws2 egress : conn) (rid1 rid2 : string)
    (req1 req2 resp1 resp2 : envelope) (s : state) :
  master s = Some egress →
  Envelope.type req1 = Some "request" → Envelope.requestId req1 = Some rid1 →
  Envelope.type req2 = Some "request" → Envelope.requestId req2 = Some rid2 →
  Envelope.type resp1 = Some "response" → Envelope.requestId resp1 = Some rid1 →
  Envelope.type resp2 = Some "response" → Envelope.requestId resp2 = Some rid2 →
  rid1 ≠ "" → rid2 ≠ "" → rid1 ≠ rid2 →
  ∃ s',
    run [Message t1 ws1 (Value req1); Message t2 ws2 (Value req2);
         Message t3 egress (Value resp2); Message t4 egress (Value resp1)] s
      = (s', [Send egress (forwardMessage rid1 req1);
              Send egress (forwardMessage rid2 req2);
              Send ws2 (responseMessage resp2);
              Send ws1 (responseMessage resp1)]) ∧
    pendingRequests s' = delete rid1 (delete rid2 (pendingRequests s)).
Proof.
  intros Hm Hq1 Hr1 Hq2 Hr2 Hp1 Hi1 Hp2 Hi2 Hne1 Hne2 Hdiff.
  rewrite !run_cons.
  rewrite (step_request t1 ws1 req1), (step_request t2 ws2 req2) by done.
  rewrite (handleRequest_supplied t1 ws1 req1 rid1 egress) by done.
  cbn [fst snd].
  rewrite (handleRequest_supplied t2 ws2 req2 rid2 egress) by done.
  cbn [fst snd].
  rewrite (step_response t3 egress resp2), (step_response t4 egress resp1)
    by done.
  rewrite (handleResponse_delivers egress resp2 rid2
             {| clientWs := ws2; originalRequest := req2 |})
    by (done || apply lookup_insert_eq).
  cbn [fst snd master clients requestId pendingRequests ws_clientId clientWs].
  rewrite (handleResponse_delivers egress resp1 rid1
             {| clientWs := ws1; originalRequest := req1 |}); [|done|done|].
  - cbn [fst snd run app master clients requestId pendingRequests
           ws_clientId clientWs].
    eexists. split; [done|]. cbn.
    rewrite delete_insert_eq.
    rewrite delete_delete, delete_insert_eq. apply delete_delete.
  - cbn. rewrite delete_insert_eq.
    rewrite lookup_delete_ne by done. apply lookup_insert_eq.
Qed.

End BrokerRouting.

(** ** Identifiers generated by the broker *)
Section BrokerGeneratedIds.

Import Broker.





Lemma append_nil_l s : "" +:+ s = s.
Proof. reflexivity. Qed.

Lemma append_cons_l c s t : String c s +:+ t = String c (s +:+ t).
Proof. reflexivity. Qed.



Lemma generated_id_truthy c n : generated_id c n ≠ "".
Proof. done. Qed.





End BrokerGeneratedIds.

(** ** What the pending table holds *)
Section BrokerPendingShape.

Import Broker.

Lemma purge_subset ws p k e :
  purge ws p !! k = Some e → p !! k = Some e ∧ clientWs e ≠ ws.
Proof.
  rewrite purge_lookup. destruct (p !! k) as [e'|]; [|done].
  case_decide; [done|]. by intros [= ->].
Qed.

Lemma step_pending_shape e s :
  pending_keyed_by_request s → pending_keyed_by_request (step e s).1.
Proof.
  unfold pending_keyed_by_request. intros Hs k x.
  destruct e as [c|now c data|c|c]; cbn [step]; [apply Hs| | |].
  - destruct data as [| |m]; simpl; [apply Hs..|].
    unfold handleMessage. repeat case_decide.
    + unfold handleRegistration. repeat case_decide; simpl; apply Hs.
    + unfold handleRequest. destruct (master s); [|apply Hs]. simpl.
      intros [[<- <-]|[_ Hk]]%lookup_insert_Some; [|by apply Hs].
      simpl. split; [|split; [done|]].
      * apply str_or_nonempty, generated_id_truthy.
      * intros Hid. by apply str_or_supplied.
    + unfold handleResponse, delete_pending.
      case_decide; [|apply Hs]. destruct (get_pending s m); [|apply Hs].
      simpl. destruct (Envelope.requestId m); [|apply Hs].
      intros [_ Hk]%lookup_delete_Some. by apply Hs.
    + apply Hs.
  - rewrite handleDisconnection_pending.
    intros [Hk _]%purge_subset. by apply Hs.
  - rewrite handleDisconnection_pending.
    intros [Hk _]%purge_subset. by apply Hs.
Qed.

(** X7.  In every reachable state each pending entry sits under a truthy
    key, holds the Request frame that created it, and sits under that
    frame's own id whenever the frame had a truthy one: a Response can be
    matched to it exactly by the id its sender chose. *)
Theorem X7_pending_entries_keyed_by_request (s : state) :
  reachable s → pending_keyed_by_request s.
Proof.
  apply reachable_ind; [|apply step_pending_shape].
  intros k e Hk. simpl in Hk. by rewrite lookup_empty in Hk.
Qed.

End BrokerPendingShape.

(** ** What changes the broker state *)
Section BrokerQuiet.

Import Broker.

(** X8.  A frame changes the broker state only if it is a register frame
    with role master or client, a Request frame while an egress is
    registered, or a Response frame from the egress for a pending id.
    Every other payload -- unparseable text, [null], other JSON values,
    unknown types, unknown roles, Requests without an egress, Responses
    from anyone else or for unknown ids -- leaves registry, counter and
    pending table exactly as they are. *)
Theorem X8_only_routable_frames_change_state
    (now : N) (ws : conn) (data : parsed) (s : state) :
  (step (Message now ws data) s).1 ≠ s →
  ∃ message,
    data = Value message ∧
    ((Envelope.type message = Some "register" ∧
      (Envelope.role message = Some "master" ∨
       Envelope.role message = Some "client")) ∨
     (Envelope.type message = Some "request" ∧ is_Some (master s)) ∨
     (Envelope.type message = Some "response" ∧ master s = Some ws ∧
      is_Some (get_pending s message))).
Proof.
  destruct data as [| |m]; simpl; [done|done|].
  intros Hchange. exists m. split; [done|].
  unfold handleMessage in Hchange. repeat case_decide.
  - left. split; [done|]. unfold handleRegistration in Hchange.
    repeat case_decide; auto. done.
  - right; left. split; [done|]. unfold handleRequest in Hchange.
    destruct (master s); [by eexists|done].
  - right; right. split; [done|]. unfold handleResponse in Hchange.
    case_decide; [|done]. split; [done|].
    destruct (get_pending s m); [by eexists|done].
  - done.
Qed.

End BrokerQuiet.

(** ** Closed connections *)
Section BrokerClosed.

Import Broker.

Lemma handleDisconnection_forgets ws s :
  forgotten ws (handleDisconnection ws s).1.
Proof.
  split.
  - unfold handleDisconnection; simpl.
    case_decide as Hm; [done|]. by destruct (truthy_str _).
  - rewrite handleDisconnection_pending.
    intros k e [_ Hown]%purge_subset. done.
Qed.

(** While nothing refers to [ws] and [ws] sends nothing, no handler
    addresses a frame to [ws] or starts referring to it. *)
Lemma step_forgotten e ws s :
  sender e ≠ Some ws → forgotten ws s →
  forgotten ws (step e s).1 ∧ sent_to ws (step e s).2 = [].
Proof.
  intros Hsender [Hm Hown].
  destruct e as [c|now c data|c|c]; cbn [step sender] in *.
  - done.
  - assert (c ≠ ws) as Hc by congruence.
    destruct data as [| |m]; simpl.
    + split; [done|]. by rewrite decide_False.
    + split; [done|]. by rewrite decide_False.
    + unfold handleMessage. repeat case_decide.
      * unfold handleRegistration. repeat case_decide; simpl;
          rewrite ?decide_False by done; (split; [split|]; try done);
          congruence.
      * unfold handleRequest. destruct (master s) as [egress|] eqn:Heg; simpl.
        -- rewrite decide_False by congruence. split; [split|]; try done.
           simpl. intros k e [[_ <-]|[_ Hk]]%lookup_insert_Some; [done|].
           by eapply Hown.
        -- rewrite decide_False by done.
           split; [split; [by rewrite Heg|done]|done].
      * unfold handleResponse, get_pending, delete_pending.
        case_decide; [|done].
        destruct (Envelope.requestId m) as [rid|]; [|done].
        destruct (pendingRequests s !! rid) as [owner|] eqn:Hrid; [|done].
        simpl. rewrite decide_False by (by eapply Hown).
        split; [split|]; try done. simpl.
        intros k e [_ Hk]%lookup_delete_Some. by eapply Hown.
      * done.
  - split; [|done]. split.
    + unfold handleDisconnection; simpl.
      case_decide; [done|]. by destruct (truthy_str _).
    + rewrite handleDisconnection_pending.
      intros k e [Hk _]%purge_subset. by eapply Hown.
  - split; [|done]. split.
    + unfold handleDisconnection; simpl.
      case_decide; [done|]. by destruct (truthy_str _).
    + rewrite handleDisconnection_pending.
      intros k e [Hk _]%purge_subset. by eapply Hown.
Qed.

Lemma sent_to_app ws out1 out2 :
  sent_to ws (out1 ++ out2) = sent_to ws out1 ++ sent_to ws out2.
Proof. apply omap_app. Qed.

Lemma run_forgotten es ws s :
  Forall (λ e, sender e ≠ Some ws) es → forgotten ws s →
  forgotten ws (run es s).1 ∧ sent_to ws (run es s).2 = [].
Proof.
  revert s. induction es as [|e es IH]; intros s Hall Hs; [done|].
  apply Forall_cons in Hall as [He Hes].
  destruct (step_forgotten e ws s He Hs) as [Hs1 Hout1].
  destruct (IH (step e s).1 Hes Hs1) as [Hs2 Hout2].
  rewrite run_cons; simpl. split; [done|].
  by rewrite sent_to_app, Hout1, Hout2.
Qed.

(** X9.  Once a socket has disconnected the broker never addresses a frame
    to it again, whatever the other connections send and whichever of them
    disconnect, and it is neither the egress nor the owner of a pending
    entry in any later state. *)
Theorem X9_nothing_sent_to_closed_connection
    (ws : conn) (es : list event) (s : state) :
  Forall (λ e, sender e ≠ Some ws) es →
  let closed := (handleDisconnection ws s).1 in
  sent_to ws (run es closed).2 = [] ∧
  master (run es closed).1 ≠ Some ws ∧
  (∀ k e, pendingRequests (run es closed).1 !! k = Some e → clientWs e ≠ ws).
Proof.
  intros Hall closed.
  destruct (run_forgotten es ws closed Hall (handleDisconnection_forgets ws s))
    as [[Hm Hown] Hout].
  done.
Qed.

Lemma purge_idemp ws p : purge ws (purge ws p) = purge ws p.
Proof.
  apply map_eq. intros k. rewrite !purge_lookup.
  destruct (p !! k) as [e|]; [|done].
  case_decide as Hown; [done|]. by rewrite decide_False.
Qed.

Lemma purge_nothing ws p :
  (∀ k e, p !! k = Some e → clientWs e ≠ ws) → purge ws p = p.
Proof.
  intros Hown. apply map_eq. intros k. rewrite purge_lookup.
  destruct (p !! k) as [e|] eqn:Hk; [|done].
  rewrite decide_False; [done|]. by eapply Hown.
Qed.

Lemma handleDisconnection_egress ws s :
  master s = Some ws →
  handleDisconnection ws s =
    ({| clients := clients s; master := None; requestId := requestId s;
        pendingRequests := purge ws (pendingRequests s);
        ws_clientId := ws_clientId s |}, []).
Proof. intros Hm. unfold handleDisconnection. by rewrite decide_True. Qed.

Lemma handleDisconnection_client ws cid s :
  master s ≠ Some ws → ws_clientId s !! ws = Some cid → cid ≠ "" →
  handleDisconnection ws s =
    ({| clients := delete cid (clients s); master := master s;
        requestId := requestId s;
        pendingRequests := purge ws (pendingRequests s);
        ws_clientId := ws_clientId s |}, []).
Proof.
  intros Hm Hcid Hne. unfold handleDisconnection.
  rewrite decide_False by done. rewrite Hcid. simpl.
  by destruct (String.eqb_spec cid "").
Qed.

Lemma handleDisconnection_anonymous ws s :
  master s ≠ Some ws → truthy_str (ws_clientId s !! ws) = false →
  handleDisconnection ws s =
    ({| clients := clients s; master := master s; requestId := requestId s;
        pendingRequests := purge ws (pendingRequests s);
        ws_clientId := ws_clientId s |}, []).
Proof.
  intros Hm Hcid. unfold handleDisconnection.
  rewrite decide_False by done. by rewrite Hcid.
Qed.

(** X10.  The ['error'] and the ['close'] listener both run
    [handleDisconnection]; running it a second time for the same socket
    changes nothing, provided the socket is not at once the registered
    egress and the carrier of a client id. *)
Theorem X10_disconnection_idempotent (ws : conn) (s : state) :
  master s ≠ Some ws ∨ ws_clientId s !! ws = None →
  handleDisconnection ws (handleDisconnection ws s).1
    = handleDisconnection ws s.
Proof.
  intros Hcond.
  destruct (decide (master s = Some ws)) as [Hm|Hm].
  - destruct Hcond as [|Hnone]; [done|].
    rewrite (handleDisconnection_egress ws s) by done. cbn [fst].
    rewrite handleDisconnection_anonymous; simpl; [|done|by rewrite Hnone].
    by rewrite purge_idemp.
  - destruct (truthy_str (ws_clientId s !! ws)) eqn:Htruthy.
    + destruct (ws_clientId s !! ws) as [cid|] eqn:Hcid; [|done].
      assert (cid ≠ "") as Hne.
      { intros ->. done. }
      rewrite (handleDisconnection_client ws cid s) by done. cbn [fst].
      rewrite (handleDisconnection_client ws cid); simpl; [|done..].
      by rewrite purge_idemp, delete_delete_eq.
    + rewrite (handleDisconnection_anonymous ws s) by done. cbn [fst].
      rewrite handleDisconnection_anonymous; simpl; [|done..].
      by rewrite purge_idemp.
Qed.

(** X11.  The disconnection of a socket the broker holds nothing about
    (not the egress, no client id, no pending entry) leaves the state
    exactly as it is. *)
Theorem X11_unknown_socket_disconnects (ws : conn) (s : state) :
  master s ≠ Some ws →
  ws_clientId s !! ws = None →
  (∀ k e, pendingRequests s !! k = Some e → clientWs e ≠ ws) →
  handleDisconnection ws s = (s, []).
Proof.
  intros Hm Hcid Hown.
  rewrite handleDisconnection_anonymous; [|done|by rewrite Hcid].
  rewrite purge_nothing by done. by destruct s.
Qed.

End BrokerClosed.

(** * Further properties of the egress executor *)

(** ** Substrings *)

Lemma prefix_spec (n h : string) :
  String.prefix n h = true ↔ ∃ post, h = n +:+ post.
Proof.
  revert h. induction n as [|a n IH]; intros h.
  - split; [intros _; by exists h|by destruct h].
  - destruct h as [|b h]; simpl.
    + split; [done|]. intros [post Hpost]. by rewrite append_cons_l in Hpost.
    + destruct (ascii_dec a b) as [->|Hab].
      * rewrite IH. split; intros [post Hpost]; exists post.
        -- by rewrite append_cons_l, <- Hpost.
        -- rewrite append_cons_l in Hpost. by injection Hpost.
      * split; [done|]. intros [post Hpost].
        rewrite append_cons_l in Hpost. injection Hpost as Hba _. congruence.
Qed.

Lemma includes_nil n : Master.includes n "" = String.prefix n "".
Proof. simpl. apply orb_false_r. Qed.

Lemma includes_cons n c h :
  Master.includes n (String c h)
    = String.prefix n (String c h) || Master.includes n h.
Proof. reflexivity. Qed.

(** [includes] is the substring test. *)
Lemma includes_spec (n h : string) :
  Master.includes n h = true ↔ ∃ pre post, h = pre +:+ n +:+ post.
Proof.
  split.
  - induction h as [|c h IH].
    + rewrite includes_nil. intros [post ->]%prefix_spec. by exists "", post.
    + rewrite includes_cons, orb_true_iff. intros [Hp|Hin].
      * apply prefix_spec in Hp as [post ->]. by exists "", post.
      * destruct (IH Hin) as (pre & post & ->). by exists (String c pre), post.
  - intros (pre & post & ->). induction pre as [|c pre IH].
    + rewrite append_nil_l.
      assert (String.prefix n (n +:+ post) = true) as Hp
        by (apply prefix_spec; by exists post).
      destruct (n +:+ post).
      * by rewrite includes_nil.
      * by rewrite includes_cons, Hp.
    + rewrite append_cons_l, includes_cons, IH. apply orb_true_r.
Qed.

(** ** Replies of the executor *)
Section MasterReplies.

Import Master.

Variable JSON_stringify : json → string.
Variable JSON_parse : string → option json.

Lemma handleMessage_request (url : string) (message : envelope) (o : outcome) :
  Envelope.type message = Some "request" →
  ∃ reply,
    handleMessage JSON_stringify JSON_parse url message o
      = [HttpRequest (forwardRequest JSON_stringify url message);
         WsSend reply] ∧
    Envelope.type reply = Some "response" ∧
    Envelope.requestId reply = Envelope.requestId message ∧
    is_Some (Envelope.statusCode reply) ∧
    is_Some (Envelope.headers reply) ∧
    is_Some (Envelope.body reply) ∧
    Envelope.error reply = None.
Proof.
  intros Htype. unfold handleMessage, handleRequest.
  rewrite decide_True by done. eexists. split; [done|].
  destruct (settle JSON_parse o); simpl; eauto 10.
Qed.


(** X13.  When the target answers, the Response frame carries the real
    status code and headers.  Its body is the value [JSON.parse] gives for
    the response text when the content type contains ['application/json'],
    the text is not empty and it parses; in every other case -- another or
    no content type, an empty text, a text that does not parse -- it is
    the text itself, never an error. *)
Theorem X13_response_body_parsing
    (url : string) (message : envelope)
    (statusCode : Z) (hdrs : gmap string json) (text : string) :
  ∃ reply body,
    handleRequest JSON_stringify JSON_parse url message
      (Ended statusCode hdrs text)
      = [HttpRequest (forwardRequest JSON_stringify url message);
         WsSend reply] ∧
    Envelope.type reply = Some "response" ∧
    Envelope.requestId reply = Envelope.requestId message ∧
    Envelope.statusCode reply = Some statusCode ∧
    Envelope.headers reply = Some hdrs ∧
    Envelope.body reply = Some body ∧
    (∀ pre post v,
       hdrs !! "content-type"
         = Some (JStr (pre +:+ "application/json" +:+ post)) →
       text ≠ "" → JSON_parse text = Some v → body = v) ∧
    (JSON_parse text = None → body = JStr text) ∧
    (text = "" → body = JStr "") ∧
    ((∀ pre post,
        hdrs !! "content-type"
          ≠ Some (JStr (pre +:+ "application/json" +:+ post))) →
     body = JStr text).
Proof.
  eexists _, _. split; [done|]. simpl. repeat (split; [done|]).
  unfold parsedBody, contentType. split; [|split; [|split]].
  - intros pre post v -> Hne Hparse.
    assert (includes "application/json"
              (pre +:+ "application/json" +:+ post) = true) as ->
      by (apply includes_spec; by exists pre, post).
    destruct (String.eqb_spec text "") as [|_]; [done|]. simpl.
    by rewrite Hparse.
  - intros ->. by destruct (_ && _).
  - intros ->. by rewrite andb_false_r.
  - intros Hct.
    destruct (hdrs !! "content-type") as [[| | |ct| |]|] eqn:Hlook; try done.
    destruct (includes "application/json" ct) eqn:Hin; [|done].
    apply includes_spec in Hin as (pre & post & ->). by destruct (Hct pre post).
Qed.

End MasterReplies.

(** * Further properties of the ingress adapter *)

(** ** The link to the broker *)
Section AdapterLink.

Import ClientLink.

Lemma link_run_cons e es s :
  run (e :: es) s =
    ((run es (step e s).1).1, (step e s).2 ++ (run es (step e s).1).2).
Proof.
  simpl. destruct (step e s) as [s1 out1]; simpl.
  by destruct (run es s1).
Qed.


Lemma frames_sent_app out1 out2 :
  frames_sent (out1 ++ out2) = frames_sent out1 ++ frames_sent out2.
Proof. apply omap_app. Qed.

(** X14.  Every HTTP request is first given the three CORS headers.  A
    frame goes to the broker exactly when the link is up and the request
    is not a preflight; a preflight (OPTIONS) is answered by the adapter
    itself with status 200, link up or down, and leaves no entry and no
    timer. *)
Theorem X14_what_is_forwarded
    (requestId : string) (req : Client.request) (res : nat) (s : Client.state) :
  (∃ rest, (step (Http requestId req res) s).2 = cors_headers res ++ rest) ∧
  (frames_sent (step (Http requestId req res) s).2 ≠ [] ↔
   Client.isConnected s = true ∧ Client.method req ≠ Some "OPTIONS") ∧
  (Client.isConnected s = true → Client.method req ≠ Some "OPTIONS" →
   frames_sent (step (Http requestId req res) s).2
     = [Client.requestData requestId req]) ∧
  (Client.method req = Some "OPTIONS" →
   step (Http requestId req res) s
     = (s, cors_headers res ++ [SendStatus res 200])).
Proof.
  cbn [step]. unfold on_request.
  split; [by eexists|]. cbn [snd]. rewrite frames_sent_app.
  destruct (decide (Client.method req = Some "OPTIONS")) as [Hm|Hm];
    unfold Client.handleRequest;
    destruct (Client.isConnected s); simpl; intuition congruence.
Qed.

(** Only the ['open'] listener sets [isConnected]. *)
Lemma step_stays_disconnected e s :
  is_open e = false →
  Client.isConnected s = false → Client.isConnected (step e s).1 = false.
Proof.
  intros He Hs. destruct e as [u|data| | | |rid req res|t]; simpl; try done.
  - destruct data as [| |m]; simpl; [done..|].
    unfold Client.handleMessage, Client.handleResponse, Client.handleError.
    repeat case_decide; try done; by destruct (Client.get_pending s m).
  - unfold on_request. case_decide; [done|].
    unfold Client.handleRequest. by rewrite Hs.
  - destruct (Client.timers s !! t) as [a|]; [|done].
    unfold Client.on_timeout; simpl.
    by destruct (Client.pendingRequests s !! Client.for_requestId a).
Qed.

Lemma run_stays_disconnected es s :
  Forall (λ e, is_open e = false) es →
  Client.isConnected s = false → Client.isConnected (run es s).1 = false.
Proof.
  revert s. induction es as [|e es IH]; intros s Hall Hs; [done|].
  apply Forall_cons in Hall as [He Hes].
  rewrite link_run_cons; simpl. by apply IH, step_stays_disconnected.
Qed.

(** X15.  From the moment the link closes or fails until it opens again,
    every HTTP request (other than a preflight) is answered at once with
    the CORS headers and 503 'Service unavailable'; it is neither stored
    nor sent nor given a timer: the adapter does not queue. *)
Theorem X15_link_down_answers_503
    (down : event) (es : list event) (requestId : string)
    (req : Client.request) (res : nat) (s : Client.state) :
  down = Close ∨ down = Error →
  Forall (λ e, is_open e = false) es →
  Client.method req ≠ Some "OPTIONS" →
  let s' := (run (down :: es) s).1 in
  step (Http requestId req res) s'
    = (s', cors_headers res ++
           [Do (Client.Respond res (Client.Status (Some 503%Z)));
            Do (Client.Respond res (Client.Json (JObj
              [("error",
                JStr "Service unavailable - not connected to relay server")])))]).
Proof.
  intros Hdown Hes Hm s'.
  assert (Client.isConnected s' = false) as Hoff.
  { subst s'. rewrite link_run_cons; simpl.
    apply run_stays_disconnected; [done|]. by destruct Hdown as [-> | ->]. }
  simpl. unfold on_request. rewrite decide_False by done.
  unfold Client.handleRequest. by rewrite Hoff.
Qed.

Lemma reconnect_delays_app out1 out2 :
  reconnect_delays (out1 ++ out2)
    = reconnect_delays out1 ++ reconnect_delays out2.
Proof. apply omap_app. Qed.

Lemma reconnect_delays_do (out : list Client.effect) :
  reconnect_delays (Do <$> out) = [].
Proof. induction out as [|x out IH]; [done|]. by simpl. Qed.

Lemma step_reconnects e s :
  reconnect_delays (step e s).2 = if is_close e then [5000%Z] else [].
Proof.
  destruct e as [u|data| | | |rid req res|t]; simpl; try done.
  - destruct data as [| |m]; simpl; [done..|]. apply reconnect_delays_do.
  - unfold on_request. case_decide; simpl; [done|].
    apply reconnect_delays_do.
  - apply reconnect_delays_do.
Qed.

(** X16.  The adapter reconnects with a fixed delay and without a limit:
    along any sequence of events it schedules exactly one reconnection of
    5000 ms for each ['close'] of the link and none for any other event
    (an ['error'] alone schedules nothing); and neither ['close'] nor
    ['error'] touches the pending requests or their timers, which are left
    to be answered or to time out. *)
Theorem X16_reconnect_policy (es : list event) (s : Client.state) :
  reconnect_delays (run es s).2
    = replicate (length (filter (λ e, is_close e) es)) 5000%Z ∧
  (∀ down, down = Close ∨ down = Error →
     Client.pendingRequests (step down s).1 = Client.pendingRequests s ∧
     Client.timers (step down s).1 = Client.timers s ∧
     Client.isConnected (step down s).1 = false ∧
     ∀ res c, Do (Client.Respond res c) ∉ (step down s).2).
Proof.
  split.
  - revert s. induction es as [|e es IH]; intros s; [done|].
    rewrite link_run_cons; simpl.
    rewrite reconnect_delays_app, step_reconnects, IH.
    rewrite filter_cons.
    case_decide as Hc; destruct (is_close e); simpl in *; done.
  - intros down [-> | ->]; simpl; repeat (split; [done|]); intros res c Hin.
    + apply list_elem_of_singleton in Hin. discriminate.
    + by apply elem_of_nil in Hin.
Qed.

End AdapterLink.

(** ** Pending requests and their timers *)
Section AdapterTimers.

Import ClientLink.







End AdapterTimers.

(** * The three processes together *)

(** ** Handshakes *)
Section Handshakes.

(** X18.  The adapter's handshake: when its link opens the adapter marks
    itself connected and sends one register frame with role client and id
    ['client_' + uuid]; the broker stores the socket under exactly that id,
    leaves egress slot and pending table alone and acknowledges with the
    same id; the adapter takes the acknowledgement without any effect. *)
Theorem X18_ingress_handshake
    (uuid : string) (now : N) (ws : nat) (c : Client.state) (b : Broker.state) :
  ∃ frame ack b',
    ClientLink.step (ClientLink.Open uuid) c
      = (ClientLink.set_connected true c,
         [ClientLink.Do (Client.WsSend frame)]) ∧
    Broker.step (Broker.Message now ws (Broker.Value frame)) b
      = (b', [Broker.Send ws ack]) ∧
    Broker.clients b' !! ("client_" +:+ uuid) = Some ws ∧
    Broker.ws_clientId b' !! ws = Some ("client_" +:+ uuid) ∧
    Broker.master b' = Broker.master b ∧
    Broker.pendingRequests b' = Broker.pendingRequests b ∧
    Envelope.type ack = Some "registered" ∧
    Envelope.role ack = Some "client" ∧
    Envelope.clientId ack = Some ("client_" +:+ uuid) ∧
    ClientLink.step (ClientLink.Data (Broker.Value ack))
        (ClientLink.set_connected true c)
      = (ClientLink.set_connected true c, []).
Proof.
  eexists _, _, _. split; [done|]. split.
  { simpl. unfold Broker.handleMessage. rewrite decide_True by done.
    by rewrite (handleRegistration_client now ws _ ("client_" +:+ uuid)). }
  simpl. split; [apply lookup_insert_eq|]. split; [apply lookup_insert_eq|].
  done.
Qed.

Variable JSON_stringify : json → string.
Variable JSON_parse : string → option json.
Variable targetApiUrl : string.

(** X19.  The executor's handshake: when its link opens the executor
    sends one register frame with role master; the broker makes that
    socket the egress, whoever was the egress before, keeps registry and
    pending table and acknowledges; the executor takes the acknowledgement
    without issuing a call or sending a frame. *)
Theorem X19_egress_handshake
    (now : N) (ws : nat) (o : Master.outcome)
    (m : MasterLink.state) (b : Broker.state) :
  ∃ frame ack b' m',
    MasterLink.step JSON_stringify JSON_parse targetApiUrl MasterLink.Open m
      = (m', [MasterLink.Do (Master.WsSend frame)]) ∧
    MasterLink.isConnected m' = true ∧
    Broker.step (Broker.Message now ws (Broker.Value frame)) b
      = (b', [Broker.Send ws ack]) ∧
    Broker.master b' = Some ws ∧
    Broker.clients b' = Broker.clients b ∧
    Broker.pendingRequests b' = Broker.pendingRequests b ∧
    Envelope.type ack = Some "registered" ∧
    Envelope.role ack = Some "master" ∧
    MasterLink.step JSON_stringify JSON_parse targetApiUrl
        (MasterLink.Data (Broker.Value ack) o) m'
      = (m', []).
Proof. by eexists _, _, _, _. Qed.

Lemma master_link_run_cons e es s :
  MasterLink.run JSON_stringify JSON_parse targetApiUrl (e :: es) s =
    ((MasterLink.run JSON_stringify JSON_parse targetApiUrl es
        (MasterLink.step JSON_stringify JSON_parse targetApiUrl e s).1).1,
     (MasterLink.step JSON_stringify JSON_parse targetApiUrl e s).2 ++
     (MasterLink.run JSON_stringify JSON_parse targetApiUrl es
        (MasterLink.step JSON_stringify JSON_parse targetApiUrl e s).1).2).
Proof.
  simpl. destruct (MasterLink.step _ _ _ e s) as [s1 out1]; simpl.
  by destruct (MasterLink.run _ _ _ es s1).
Qed.

Lemma master_step_link e s :
  MasterLink.reconnect_delays
    (MasterLink.step JSON_stringify JSON_parse targetApiUrl e s).2
    = (if MasterLink.is_close e then [5000%Z] else []) ∧
  MasterLink.registrations
    (MasterLink.step JSON_stringify JSON_parse targetApiUrl e s).2
    = (if MasterLink.is_open e then [MasterLink.register_frame] else []).
Proof.
  destruct e as [|data o| | |]; simpl; try done.
  destruct data as [| |message]; simpl; [done..|].
  unfold Master.handleMessage, Master.handleRequest.
  case_decide; [|done]. simpl.
  by destruct (Master.settle JSON_parse o).
Qed.

(** X20.  The executor's link policy: along any sequence of events it
    sends exactly one register frame (role master) for each ['open'] and
    schedules exactly one reconnection of 5000 ms for each ['close'];
    frames from the broker, errors and the calls it performs add neither. *)
Theorem X20_executor_link_policy (es : list MasterLink.event) (s : MasterLink.state) :
  MasterLink.reconnect_delays
    (MasterLink.run JSON_stringify JSON_parse targetApiUrl es s).2
    = replicate (length (filter (λ e, MasterLink.is_close e) es)) 5000%Z ∧
  MasterLink.registrations
    (MasterLink.run JSON_stringify JSON_parse targetApiUrl es s).2
    = replicate (length (filter (λ e, MasterLink.is_open e) es))
        MasterLink.register_frame.
Proof.
  revert s. induction es as [|e es IH]; intros s; [done|].
  rewrite master_link_run_cons; cbn [fst snd].
  unfold MasterLink.reconnect_delays, MasterLink.registrations in *.
  rewrite !omap_app.
  destruct (master_step_link e s) as [Hr Hg].
  unfold MasterLink.reconnect_delays, MasterLink.registrations in Hr, Hg.
  rewrite Hr, Hg.
  destruct (IH (MasterLink.step JSON_stringify JSON_parse targetApiUrl e s).1)
    as [-> ->].
  rewrite !filter_cons.
  split; case_decide as Hc;
    destruct (MasterLink.is_close e), (MasterLink.is_open e);
    simpl in *; done.
Qed.

End Handshakes.

(** ** A request from end to end *)
Section EndToEnd.

Variable JSON_stringify : json → string.
Variable JSON_parse : string → option json.
Variable targetApiUrl : string.



(** X23.  No egress.  When no egress is registered the broker answers the
    adapter's Request with its Error frame at once, and the adapter
    answers the HTTP caller with status 500 and the body
    [{ error: 'Master computer not available' }], removes the entry and
    clears the timer; the broker's pending table is not touched. *)
Theorem X23_no_egress_answers_500
    (rid : string) (req : Client.request) (res : nat) (c : Client.state)
    (now : N) (ws : nat) (b : Broker.state) :
  Client.isConnected c = true →
  Broker.master b = None →
  ∃ frame err c1 c2,
    Client.handleRequest rid req res c = (c1, [Client.WsSend frame]) ∧
    Broker.step (Broker.Message now ws (Broker.Value frame)) b
      = (b, [Broker.Send ws err]) ∧
    Client.handleMessage err c1
      = (c2, [Client.Respond res (Client.Status (Some 500%Z));
              Client.Respond res (Client.Json (JObj
                [("error", JStr "Master computer not available")]))]) ∧
    Client.pendingRequests c2 !! rid = None ∧
    Client.timers c2 !! Client.next_timer c = None.
Proof.
  intros Hconn Hm. eexists _, _, _, _. split.
  { unfold Client.handleRequest. by rewrite Hconn. }
  split.
  { rewrite step_request by done. unfold Broker.handleRequest. by rewrite Hm. }
  split.
  { unfold Client.handleMessage. rewrite decide_False by done.
    rewrite decide_True by done.
    unfold Client.handleError, Client.get_pending. simpl.
    by rewrite lookup_insert_eq. }
  simpl. split; apply lookup_delete_eq.
Qed.

(** X24.  A late answer.  If the adapter's timer goes off first, the HTTP
    caller gets 504 and the adapter forgets the id, but the broker keeps
    its entry; when the executor's reply arrives later the broker still
    relays it to the requesting socket and only then removes the entry,
    and the adapter drops the frame without touching any response. *)
Theorem X24_late_answer_is_dropped
    (rid : string) (res t : nat) (c1 : Client.state)
    (now : N) (ws egress : nat) (owner : Broker.pending) (b1 : Broker.state)
    (fwd : envelope) (o : Master.outcome) :
  Client.pendingRequests c1 !! rid
    = Some {| Client.res := res; Client.timeout := Some t |} →
  Client.timers c1 !! t
    = Some {| Client.delay := 30000; Client.for_requestId := rid;
              Client.for_res := res |} →
  Broker.master b1 = Some egress →
  Broker.pendingRequests b1 !! rid = Some owner →
  Broker.clientWs owner = ws →
  Envelope.type fwd = Some "request" →
  Envelope.requestId fwd = Some rid →
  ∃ c2 call reply back b2,
    Client.step (Client.TimerFired t) c1
      = (c2, [Client.Respond res (Client.Status (Some 504%Z));
              Client.Respond res (Client.Json (JObj
                [("error", JStr "Request timeout")]))]) ∧
    Client.pendingRequests c2 !! rid = None ∧
    Master.handleMessage JSON_stringify JSON_parse targetApiUrl fwd o
      = [Master.HttpRequest call; Master.WsSend reply] ∧
    Broker.step (Broker.Message now egress (Broker.Value reply)) b1
      = (b2, [Broker.Send ws back]) ∧
    Broker.pendingRequests b2 !! rid = None ∧
    Client.handleMessage back c2 = (c2, []).
Proof.
  intros Hentry Htimer Hm Hown <- Htype Hrid.
  destruct (handleMessage_request JSON_stringify JSON_parse
              targetApiUrl fwd o Htype)
    as (reply & Hreply & Hrtype & Hrrid & _).
  rewrite Hrid in Hrrid.
  eexists _, _, reply, (Broker.responseMessage reply), _. split.
  { simpl. rewrite Htimer. unfold Client.on_timeout; simpl. by rewrite Hentry. }
  split; [apply lookup_delete_eq|]. split; [exact Hreply|]. split.
  { rewrite step_response by done.
    by rewrite (handleResponse_delivers egress reply rid owner). }
  split; [apply lookup_delete_eq|].
  unfold Client.handleMessage. rewrite decide_True by done.
  unfold Client.handleResponse, Client.get_pending. simpl. rewrite Hrrid.
  simpl. by rewrite lookup_delete_eq.
Qed.

End EndToEnd.

(** * The properties at concrete inputs *)

Lemma X1_egress_last_registered_wins_witness :
  Broker.master
    (Broker.handleRegistration 1 9 (register_as "master" None)
       broker_one_in_flight).1 = Some 9 ∧
  Broker.handleResponse 0 (response_200 "r1")
    (Broker.handleRegistration 1 9 (register_as "master" None)
       broker_one_in_flight).1
    = ((Broker.handleRegistration 1 9 (register_as "master" None)
          broker_one_in_flight).1, []) ∧
  (Broker.handleResponse 9 (response_200 "r1")
     (Broker.handleRegistration 1 9 (register_as "master" None)
        broker_one_in_flight).1).2
    = [Broker.Send 1 (Broker.responseMessage (response_200 "r1"))].
Proof.
  pose proof (X1_egress_last_registered_wins 1 9 (register_as "master" None)
                (response_200 "r1") broker_one_in_flight eq_refl)
    as (_ & Hm & _ & _ & Hstale & Hnew).
  split; [exact Hm|]. split.
  - apply Hstale. discriminate.
  - apply (Hnew {| Broker.clientWs := 1;
                   Broker.originalRequest := Envelope.empty |}).
    reflexivity.
Defined.

Lemma X2_client_registration_witness :
  (∃ ack s',
     Broker.handleRegistration 5 3 (register_as "client" (Some "a")) Broker.initial
       = (s', [Broker.Send 3 ack]) ∧
     Envelope.clientId ack = Some "a" ∧
     Broker.clients s' !! "a" = Some 3) ∧
  Broker.handleRegistration 5 3 (register_as "observer" None) Broker.initial
    = (Broker.initial, []).
Proof.
  split.
  - destruct (proj1 (X2_client_registration 5 3
                       (register_as "client" (Some "a")) Broker.initial)
                eq_refl)
      as (cid & ack & s' & Hreg & Hsup & _ & _ & _ & _ & Hack & Hc & _).
    specialize (Hsup eq_refl). injection Hsup as <-.
    by exists ack, s'.
  - apply (proj2 (X2_client_registration 5 3
                    (register_as "observer" None) Broker.initial));
      discriminate.
Defined.

Lemma X3_client_id_takeover_witness :
  Broker.clients
    (Broker.handleDisconnection 1
       (Broker.handleRegistration 6 2 (register_as "client" (Some "a"))
          (Broker.handleRegistration 5 1 (register_as "client" (Some "a"))
             Broker.initial).1).1).1 !! "a" = None.
Proof.
  apply (X3_client_id_takeover 5 6 1 2
           (register_as "client" (Some "a")) (register_as "client" (Some "a"))
           "a" Broker.initial);
    try reflexivity; discriminate.
Defined.

Lemma X4_request_response_round_trip_witness :
  ∃ s2,
    Broker.run
      [Broker.Message 101 1 (Broker.Value (get_request "r" "/status"));
       Broker.Message 102 7 (Broker.Value (response_200 "r"))]
      broker_with_egress
      = (s2, [Broker.Send 7 (Broker.forwardMessage "r" (get_request "r" "/status"));
              Broker.Send 1 (Broker.responseMessage (response_200 "r"))]) ∧
    s2 = broker_with_egress.
Proof.
  destruct (X4_request_response_round_trip 101 102 1 7 "r"
              (get_request "r" "/status") (response_200 "r") broker_with_egress
              eq_refl eq_refl eq_refl ltac:(discriminate) eq_refl eq_refl)
    as (s2 & Hrun & _ & _ & Hback).
  exists s2. split; [exact Hrun|]. apply Hback. reflexivity.
Defined.

Lemma X5_out_of_order_responses_witness :
  ∃ s',
    Broker.run
      [Broker.Message 101 1 (Broker.Value (get_request "r" "/a"));
       Broker.Message 102 2 (Broker.Value (get_request "q" "/b"));
       Broker.Message 103 7 (Broker.Value (response_200 "q"));
       Broker.Message 104 7 (Broker.Value (response_200 "r"))]
      broker_with_egress
      = (s', [Broker.Send 7 (Broker.forwardMessage "r" (get_request "r" "/a"));
              Broker.Send 7 (Broker.forwardMessage "q" (get_request "q" "/b"));
              Broker.Send 2 (Broker.responseMessage (response_200 "q"));
              Broker.Send 1 (Broker.responseMessage (response_200 "r"))]).
Proof.
  destruct (X5_out_of_order_responses 101 102 103 104 1 2 7 "r" "q"
              (get_request "r" "/a") (get_request "q" "/b")
              (response_200 "r") (response_200 "q") broker_with_egress
              eq_refl eq_refl eq_refl eq_refl eq_refl eq_refl eq_refl
              eq_refl eq_refl ltac:(discriminate) ltac:(discriminate)
              ltac:(discriminate))
    as (s' & Hrun & _).
  by exists s'.
Defined.


Lemma X7_pending_entries_keyed_by_request_witness :
  pending_keyed_by_request (Broker.run two_ingress_busy Broker.initial).1.
Proof.
  apply X7_pending_entries_keyed_by_request. eexists. reflexivity.
Defined.

Lemma X8_only_routable_frames_change_state_witness :
  ∃ message,
    Broker.Value (register_as "master" None) = Broker.Value message ∧
    ((Envelope.type message = Some "register" ∧
      (Envelope.role message = Some "master" ∨
       Envelope.role message = Some "client")) ∨
     (Envelope.type message = Some "request" ∧
      is_Some (Broker.master Broker.initial)) ∨
     (Envelope.type message = Some "response" ∧
      Broker.master Broker.initial = Some 7 ∧
      is_Some (Broker.get_pending Broker.initial message))).
Proof.
  apply (X8_only_routable_frames_change_state 100 7
           (Broker.Value (register_as "master" None)) Broker.initial).
  discriminate.
Defined.

Lemma X9_nothing_sent_to_closed_connection_witness :
  sent_to 1
    (Broker.run
       [Broker.Message 105 7 (Broker.Value (response_200 "r"));
        Broker.Message 106 2 (Broker.Value (get_request "z" "/c"))]
       (Broker.handleDisconnection 1
          (Broker.run two_ingress_busy Broker.initial).1).1).2 = [].
Proof.
  apply (X9_nothing_sent_to_closed_connection 1
           [Broker.Message 105 7 (Broker.Value (response_200 "r"));
            Broker.Message 106 2 (Broker.Value (get_request "z" "/c"))]
           (Broker.run two_ingress_busy Broker.initial).1).
  repeat constructor; discriminate.
Defined.

Lemma X10_disconnection_idempotent_witness :
  Broker.handleDisconnection 1
    (Broker.handleDisconnection 1
       (Broker.run two_ingress_busy Broker.initial).1).1
  = Broker.handleDisconnection 1 (Broker.run two_ingress_busy Broker.initial).1.
Proof.
  apply X10_disconnection_idempotent. left. discriminate.
Defined.

Lemma X11_unknown_socket_disconnects_witness :
  Broker.handleDisconnection 9 broker_one_in_flight = (broker_one_in_flight, []).
Proof.
  apply X11_unknown_socket_disconnects.
  - discriminate.
  - reflexivity.
  - intros k e Hk. simpl in Hk.
    apply lookup_singleton_Some in Hk as [_ <-]. discriminate.
Defined.


Lemma X13_response_body_parsing_witness :
  ∃ reply,
    Master.handleRequest stringify_stub parse_one "http://localhost:8000/"
      (get_request "r" "/status")
      (Master.Ended 200
         {[ "content-type" := JStr "application/json; charset=utf-8" ]} "[1]")
      = [Master.HttpRequest
           (Master.forwardRequest stringify_stub "http://localhost:8000/"
              (get_request "r" "/status"));
         Master.WsSend reply] ∧
    Envelope.statusCode reply = Some 200%Z ∧
    Envelope.body reply = Some (JArr [JNum 1]).
Proof.
  destruct (X13_response_body_parsing stringify_stub parse_one
              "http://localhost:8000/" (get_request "r" "/status") 200
              {[ "content-type" := JStr "application/json; charset=utf-8" ]}
              "[1]")
    as (reply & body & Hrun & _ & _ & Hstatus & _ & Hbody & Hparsed & _).
  exists reply. split; [exact Hrun|]. split; [exact Hstatus|].
  rewrite Hbody. f_equal.
  apply (Hparsed "" "; charset=utf-8" (JArr [JNum 1])).
  - reflexivity.
  - discriminate.
  - reflexivity.
Defined.

Lemma X14_what_is_forwarded_witness :
  ClientLink.frames_sent
    (ClientLink.step (ClientLink.Http "id-2" http_get_status 5) adapter_waiting).2
    = [Client.requestData "id-2" http_get_status] ∧
  ClientLink.step (ClientLink.Http "id-2" http_options 5) adapter_waiting
    = (adapter_waiting,
       ClientLink.cors_headers 5 ++ [ClientLink.SendStatus 5 200]).
Proof.
  split.
  - apply (proj1 (proj2 (proj2 (X14_what_is_forwarded "id-2" http_get_status 5
                                  adapter_waiting)))).
    + reflexivity.
    + discriminate.
  - apply (proj2 (proj2 (proj2 (X14_what_is_forwarded "id-2" http_options 5
                                  adapter_waiting)))).
    reflexivity.
Defined.

Lemma X15_link_down_answers_503_witness :
  (ClientLink.step (ClientLink.Http "id-2" http_get_status 5)
     (ClientLink.run
        [ClientLink.Close; ClientLink.TimerFired 0; ClientLink.Reconnecting]
        adapter_waiting).1).2
  = ClientLink.cors_headers 5 ++
    [ClientLink.Do (Client.Respond 5 (Client.Status (Some 503%Z)));
     ClientLink.Do (Client.Respond 5 (Client.Json (JObj
       [("error",
         JStr "Service unavailable - not connected to relay server")])))].
Proof.
  rewrite (X15_link_down_answers_503 ClientLink.Close
             [ClientLink.TimerFired 0; ClientLink.Reconnecting]
             "id-2" http_get_status 5 adapter_waiting).
  - reflexivity.
  - left. reflexivity.
  - repeat constructor.
  - discriminate.
Defined.

Lemma X16_reconnect_policy_witness :
  ClientLink.reconnect_delays
    (ClientLink.run
       [ClientLink.Error; ClientLink.Close; ClientLink.Reconnecting;
        ClientLink.Error; ClientLink.Close]
       adapter_waiting).2 = [5000%Z; 5000%Z] ∧
  Client.pendingRequests (ClientLink.step ClientLink.Close adapter_waiting).1
    = Client.pendingRequests adapter_waiting.
Proof.
  destruct (X16_reconnect_policy
              [ClientLink.Error; ClientLink.Close; ClientLink.Reconnecting;
               ClientLink.Error; ClientLink.Close]
              adapter_waiting) as [Hdelays Hdown].
  split; [exact Hdelays|].
  apply (Hdown ClientLink.Close). left. reflexivity.
Defined.




Lemma X23_no_egress_answers_500_witness :
  ∃ frame err c1 c2,
    Client.handleRequest "id-1" http_get_status 4 client_connected
      = (c1, [Client.WsSend frame]) ∧
    Broker.step (Broker.Message 101 1 (Broker.Value frame)) Broker.initial
      = (Broker.initial, [Broker.Send 1 err]) ∧
    Client.handleMessage err c1
      = (c2, [Client.Respond 4 (Client.Status (Some 500%Z));
              Client.Respond 4 (Client.Json (JObj
                [("error", JStr "Master computer not available")]))]).
Proof.
  destruct (X23_no_egress_answers_500 "id-1" http_get_status 4 client_connected
              101 1 Broker.initial eq_refl eq_refl)
    as (frame & err & c1 & c2 & H1 & H2 & H3 & _).
  by exists frame, err, c1, c2.
Defined.

Lemma X24_late_answer_is_dropped_witness :
  ∃ c2 reply back b2,
    (Client.step (Client.TimerFired 0) adapter_waiting).1 = c2 ∧
    Broker.step (Broker.Message 102 7 (Broker.Value reply)) broker_forwarded
      = (b2, [Broker.Send 1 back]) ∧
    Broker.pendingRequests b2 !! "id-1" = None ∧
    Client.handleMessage back c2 = (c2, []).
Proof.
  destruct (X24_late_answer_is_dropped stringify_stub parse_stub
              "http://localhost:8000/" "id-1" 4 0 adapter_waiting 102 1 7
              {| Broker.clientWs := 1;
                 Broker.originalRequest :=
                   Client.requestData "id-1" http_get_status |}
              broker_forwarded
              (Broker.forwardMessage "id-1"
                 (Client.requestData "id-1" http_get_status))
              (Master.Ended 200 ∅ "late")
              eq_refl eq_refl eq_refl eq_refl eq_refl eq_refl eq_refl)
    as (c2 & call & reply & back & b2 & H1 & _ & _ & H4 & H5 & H6).
  exists c2, reply, back, b2. split; [by rewrite H1|]. by split.
Defined.

(** * At most one answer *)

(** ** The broker relays at most one Response per correlation id *)
Section BrokerAtMostOnce.

Import Broker.

Lemma relayed_app rid out1 out2 :
  relayed rid (out1 ++ out2) = (relayed rid out1 + relayed rid out2)%nat.
Proof. unfold relayed. by rewrite filter_app, length_app. Qed.

Lemma relayed_one rid to m :
  relayed rid [Send to m] =
    if decide (Envelope.type m = Some "response" ∧
               Envelope.requestId m = Some rid) then 1%nat else 0%nat.
Proof.
  unfold relayed. rewrite filter_cons, filter_nil. unfold is_relay.
  destruct (decide (Envelope.type m = Some "response" ∧
                    Envelope.requestId m = Some rid)) as [Hyes|Hno].
  - rewrite decide_True; [done|]. by apply bool_decide_pack.
  - rewrite decide_False; [done|]. by intros Hyes%bool_decide_unpack.
Qed.

(** While [rid] is not pending and no Request is stored under it, nothing
    is relayed for [rid] and it stays absent. *)
Lemma step_id_free rid e s :
  keeps_id_free rid e →
  pendingRequests s !! rid = None →
  pendingRequests (step e s).1 !! rid = None ∧ relayed rid (step e s).2 = 0%nat.
Proof.
  intros Hkeep Hnone.
  destruct e as [c|now c data|c|c]; cbn [step].
  - done.
  - destruct data as [| |m]; cbn [on_message fst snd].
    + split; [done|]. rewrite relayed_one. by rewrite decide_False by (by intros []).
    + split; [done|]. rewrite relayed_one. by rewrite decide_False by (by intros []).
    + unfold handleMessage. repeat case_decide.
      * unfold handleRegistration. repeat case_decide; cbn [fst snd];
          (split; [done|]); rewrite ?relayed_one; try done;
          by rewrite decide_False by (by intros []).
      * destruct (Hkeep ltac:(done)) as (r & Hr & Hne & Hdiff).
        unfold handleRequest. destruct (master s) as [egress|] eqn:Hm;
          cbn [fst snd].
        -- rewrite relayed_one, decide_False by (by intros []).
           split; [|done]. simpl. rewrite Hr. unfold str_or.
           rewrite decide_False by done. by rewrite lookup_insert_ne.
        -- rewrite relayed_one, decide_False by (by intros []). done.
      * unfold handleResponse, get_pending, delete_pending.
        case_decide; [|done].
        destruct (Envelope.requestId m) as [r|] eqn:Hr; [|done].
        destruct (pendingRequests s !! r) as [owner|] eqn:Howner; [|done].
        cbn [fst snd]. rewrite relayed_one. simpl. rewrite Hr.
        rewrite decide_False by (intros [_ [= ->]]; congruence).
        split; [|done].
        destruct (decide (r = rid)) as [->|Hne];
          [apply lookup_delete_eq|by rewrite lookup_delete_ne].
      * done.
  - rewrite handleDisconnection_pending, purge_lookup, Hnone. done.
  - rewrite handleDisconnection_pending, purge_lookup, Hnone. done.
Qed.

Lemma run_id_free rid es s :
  Forall (keeps_id_free rid) es →
  pendingRequests s !! rid = None →
  relayed rid (run es s).2 = 0%nat.
Proof.
  revert s. induction es as [|e es IH]; intros s Hall Hnone; [done|].
  apply Forall_cons in Hall as [He Hes].
  destruct (step_id_free rid e s He Hnone) as [Hnone' Hzero].
  rewrite run_cons; cbn [snd]. rewrite relayed_app, Hzero.
  by rewrite IH.
Qed.

(** One step relays at most one Response for [rid], and then [rid] is no
    longer pending. *)
Lemma step_relays rid e s :
  keeps_id_free rid e →
  relayed rid (step e s).2 = 0%nat ∨
  (relayed rid (step e s).2 = 1%nat ∧ pendingRequests (step e s).1 !! rid = None).
Proof.
  intros Hkeep.
  destruct (pendingRequests s !! rid) as [owner|] eqn:Hrid;
    [|left; by apply step_id_free].
  destruct e as [c|now c data|c|c]; cbn [step]; try (by left).
  destruct data as [| |m]; cbn [on_message fst snd].
  - left. rewrite relayed_one. by rewrite decide_False by (by intros []).
  - left. rewrite relayed_one. by rewrite decide_False by (by intros []).
  - unfold handleMessage. repeat case_decide.
    + left. unfold handleRegistration. repeat case_decide; cbn [fst snd];
        rewrite ?relayed_one; try done;
        by rewrite decide_False by (by intros []).
    + left. unfold handleRequest. destruct (master s); cbn [fst snd];
        rewrite relayed_one; by rewrite decide_False by (by intros []).
    + unfold handleResponse, get_pending, delete_pending.
      case_decide; [|by left].
      destruct (Envelope.requestId m) as [r|] eqn:Hr; [|by left].
      destruct (pendingRequests s !! r) as [owner'|] eqn:Howner; [|by left].
      cbn [fst snd]. rewrite relayed_one. simpl. rewrite Hr.
      destruct (decide (r = rid)) as [->|Hne].
      * right. rewrite decide_True by done. split; [done|].
        apply lookup_delete_eq.
      * left. by rewrite decide_False by (intros [_ [= ->]]; congruence).
    + by left.
Qed.

(** X26.  A correlation id is answered at most once: along any sequence
    of events in which no further Request is stored under [rid] (every
    Request frame carries a truthy id other than [rid]), the broker relays
    at most one Response for [rid] -- whatever the egress sends, however
    often, and whoever registers or disconnects -- and none at all when
    [rid] is not pending at the start. *)
Theorem X26_at_most_one_relay_per_id
    (rid : string) (es : list event) (s : state) :
  Forall (keeps_id_free rid) es →
  (relayed rid (run es s).2 ≤ 1)%nat ∧
  (pendingRequests s !! rid = None → relayed rid (run es s).2 = 0%nat).
Proof.
  intros Hall. split; [|by apply run_id_free].
  revert s. induction Hall as [|e es He Hes IH]; intros s.
  { unfold relayed. simpl. lia. }
  rewrite run_cons; cbn [snd]. rewrite relayed_app.
  destruct (step_relays rid e s He) as [->|[-> Hnone]].
  - apply IH.
  - by rewrite (run_id_free rid es) by done.
Qed.

End BrokerAtMostOnce.

(** ** The adapter answers each request at most once *)
Section AdapterAtMostOnce.

Import ClientLink.
















End AdapterAtMostOnce.


Lemma X26_at_most_one_relay_per_id_witness :
  (relayed "r"
     (Broker.run
        [Broker.Message 102 7 (Broker.Value (response_200 "r"));
         Broker.Message 103 7 (Broker.Value (response_200 "r"));
         Broker.Message 104 2 (Broker.Value (get_request "q" "/b"))]
        (Broker.run first_request_pending Broker.initial).1).2 ≤ 1)%nat.
Proof.
  apply (proj1 (X26_at_most_one_relay_per_id "r"
                  [Broker.Message 102 7 (Broker.Value (response_200 "r"));
                   Broker.Message 103 7 (Broker.Value (response_200 "r"));
                   Broker.Message 104 2 (Broker.Value (get_request "q" "/b"))]
                  (Broker.run first_request_pending Broker.initial).1
                  ltac:(repeat (apply Forall_cons; split;
                                  [simpl; intros Htype; try discriminate Htype|]);
                        [exists "q"; repeat split; discriminate
                        |apply Forall_nil_2]))).
Defined.
